(** * Diabetes consultant helper: traffic-light classifier and lab-report reconciliation

    A shallow embedding of the decision logic of the repository:

    - [src/rules/__init__.py]: [load_rules] and [get_traffic_light_status];
    - [src/app_enhanced.py]: the conflict detection of [process_pdf] and the
      resolution step of [render_conflict_chip].

    Python values are embedded as a small universe of scalars, dictionaries as
    finite maps with string keys, exceptions as an error monad, and the
    Streamlit session as an explicit record threaded through the calls. *)

From Stdlib Require Import ZArith QArith Floats String.
From stdpp Require Import gmap strings.

Set Warnings "-inexact-float".
Local Open Scope string_scope.

(** ** Python values *)

Module Py.

(** The exceptions the embedded code can raise or catch. *)
Inductive error :=
| TypeError
| KeyError (key : string)
| FileNotFoundError
| JSONDecodeError
| CollaboratorError (message : string).

Inductive result (A : Type) :=
| Ok (a : A)
| Raise (e : error).
Arguments Ok {A} a.
Arguments Raise {A} e.

(** Sequencing: an exception raised by [m] propagates past [k]. *)
Definition bind {A B} (m : result A) (k : A → result B) : result B :=
  match m with
  | Ok a => k a
  | Raise e => Raise e
  end.

(** The mathematical value of a Python number.  Every [int] and every finite
    [float] is a rational; comparisons between numbers ([==], [!=], [<=],
    also between an [int] and a [float]) are exact comparisons of these
    values, with the IEEE rules for the infinities and NaN. *)
Inductive number :=
| NaN
| NegInf
| Finite (q : Q)
| PosInf.

(** A binary64 float read as its exact value: [(-1)^s * m * 2^e]. *)
Definition float_number (x : float) : number :=
  match Prim2SF x with
  | S754_nan => NaN
  | S754_infinity s => if s then NegInf else PosInf
  | S754_zero _ => Finite 0
  | S754_finite s m e =>
      let magnitude := (inject_Z (Z.pos m) * Qpower 2 e)%Q in
      Finite (if s then Qopp magnitude else magnitude)
  end.

Definition number_le (a b : number) : bool :=
  match a, b with
  | NaN, _ | _, NaN => false
  | NegInf, _ => true
  | _, PosInf => true
  | Finite p, Finite q => Qle_bool p q
  | _, _ => false
  end.

Definition number_eq (a b : number) : bool :=
  match a, b with
  | NegInf, NegInf => true
  | PosInf, PosInf => true
  | Finite p, Finite q => Qeq_bool p q
  | _, _ => false
  end.

Definition number_lt (a b : number) : bool :=
  number_le a b && negb (number_eq a b).

(** The scalars that the form, the extracted lab mapping and the JSON
    thresholds hold. *)
Inductive val :=
| VNone
| VBool (b : bool)
| VInt (n : Z)
| VFloat (x : float)
| VStr (s : string).

(** [bool] is a subtype of [int] in Python: [True == 1], [True <= 7.0]. *)
Definition as_number (v : val) : option number :=
  match v with
  | VBool b => Some (Finite (if b then 1 else 0))
  | VInt n => Some (Finite (inject_Z n))
  | VFloat x => Some (float_number x)
  | VNone | VStr _ => None
  end.

Definition is_number (v : val) : bool :=
  match as_number v with Some _ => true | None => false end.

(** [bool(v)]: the truth value used by [if v] and [v and ...]. *)
Definition truthy (v : val) : bool :=
  match v with
  | VNone => false
  | VBool b => b
  | VStr s => negb (String.eqb s "")
  | VInt _ | VFloat _ =>
      match as_number v with
      | Some (Finite q) => negb (Qeq_bool q 0)
      | _ => true
      end
  end.

(** [a == b] and [a != b] on scalars. *)
Definition eq (a b : val) : bool :=
  match a, b with
  | VNone, VNone => true
  | VStr s, VStr t => String.eqb s t
  | _, _ =>
      match as_number a, as_number b with
      | Some x, Some y => number_eq x y
      | _, _ => false
      end
  end.

Definition ne (a b : val) : bool := negb (eq a b).

(** [a <= b] and [a < b]: numbers compare with numbers, strings with
    strings; anything else raises [TypeError]. *)
Definition le (a b : val) : result bool :=
  match a, b with
  | VStr s, VStr t => Ok (String.leb s t)
  | _, _ =>
      match as_number a, as_number b with
      | Some x, Some y => Ok (number_le x y)
      | _, _ => Raise TypeError
      end
  end.

Definition lt (a b : val) : result bool :=
  match a, b with
  | VStr s, VStr t => Ok (String.ltb s t)
  | _, _ =>
      match as_number a, as_number b with
      | Some x, Some y => Ok (number_lt x y)
      | _, _ => Raise TypeError
      end
  end.

(** [d[key]] and [d.get(key, default)] on a dictionary with string keys. *)
Definition getitem {A} (d : gmap string A) (key : string) : result A :=
  match d !! key with
  | Some v => Ok v
  | None => Raise (KeyError key)
  end.

Definition get {A} (d : gmap string A) (key : string) (default : A) : A :=
  match d !! key with
  | Some v => v
  | None => default
  end.

End Py.

Export Py (Ok, Raise, VNone, VBool, VInt, VFloat, VStr).

Notation "'try!' x := m 'in' k" := (Py.bind m (λ x, k))
  (at level 10, x name, m at level 100, k at level 200,
   format "'[v' 'try!'  x  :=  m  'in' '/' k ']'").

(** ** Threshold catalog and traffic-light classifier ([src/rules/__init__.py]) *)

(** The document returned by [json.load]: sections (of which the classifier
    reads ['traffic']) mapping metric names to threshold records such as
    [{'green_max': 7.0, 'amber_max': 9.0}]. *)
Abbreviation rules_doc := (gmap string (gmap string (gmap string Py.val))) (only parsing).

(** What [open(rules_path)] followed by [json.load] finds on disk. *)
Inductive rules_file :=
| NoSuchFile
| NotJson
| Json (doc : rules_doc).

Definition load_rules (rules_json : rules_file) : Py.result rules_doc :=
  match rules_json with
  | NoSuchFile => Raise Py.FileNotFoundError
  | NotJson => Raise Py.JSONDecodeError
  | Json doc => Ok doc
  end.

Definition get_traffic_light_status
    (metric_name : string) (value : Py.val) (rules : rules_doc) : Py.result string :=
  match Py.get rules "traffic" ∅ !! metric_name with
  | None => Ok "amber"
  | Some thresholds =>
      try! below_green := Py.le value (Py.get thresholds "green_max" (VFloat infinity)) in
      if below_green then Ok "green"
      else
        try! below_amber := Py.le value (Py.get thresholds "amber_max" (VFloat infinity)) in
        if below_amber then Ok "amber" else Ok "red"
  end.

(** ** Reconciliation of form and document values ([src/app_enhanced.py]) *)

(** The part of [st.session_state] that [process_pdf] and
    [render_conflict_chip] read or write.  [patient_data] is the form
    snapshot handed to the rule engine; [lab_data] is the mapping extracted
    from the last uploaded report, test name to [{'value': .., 'unit': ..}];
    [conflicts] maps a test name to
    [{'form_value': .., 'pdf_value': .., 'unit': ..}]. *)
Record session_state := {
  patient_data : gmap string Py.val;
  lab_data : gmap string (gmap string Py.val);
  pdf_text : option string;
  conflicts : gmap string (gmap string Py.val);
}.

(** The message [process_pdf] leaves in the sidebar. *)
Inductive sidebar_message :=
| sidebar_success (message : string)
| sidebar_warning (found_conflicts : nat)
| sidebar_error (e : Py.error).

(** One iteration of [for test_name, result in lab_data.items()].  The
    accumulator is the [conflicts] dictionary built so far, or the exception
    that ended the loop.  [result['value']] is only evaluated when the form
    value is truthy ([and] short-circuits). *)
Definition detect_conflict (patient_data : gmap string Py.val)
    (test_name : string) (result : gmap string Py.val)
    (acc : Py.result (gmap string (gmap string Py.val)))
    : Py.result (gmap string (gmap string Py.val)) :=
  try! conflicts := acc in
  let form_value := Py.get patient_data test_name VNone in
  if Py.truthy form_value then
    try! pdf_value := Py.getitem result "value" in
    if Py.ne form_value pdf_value then
      Ok (<[test_name := {[ "form_value" := form_value;
                            "pdf_value" := pdf_value;
                            "unit" := Py.get result "unit" (VStr "") ]}]> conflicts)
    else Ok conflicts
  else Ok conflicts.

Definition detect_conflicts (patient_data : gmap string Py.val)
    (lab_data : gmap string (gmap string Py.val))
    : Py.result (gmap string (gmap string Py.val)) :=
  map_fold (detect_conflict patient_data) (Ok ∅) lab_data.

Section ProcessPdf.

(** The PDF processor ([src/utils/pdf_processor.py]) is an external
    collaborator: text extraction and lab parsing are parameters, and either
    may raise. *)
Context {UploadedFile : Type}.
Variable extract_text : UploadedFile → Py.result string.
Variable parse_lab_results : string → Py.result (gmap string (gmap string Py.val)).

(** [process_pdf]: every exception raised inside the [try] block is caught
    and reported in the sidebar; assignments made before it stay. *)
Definition process_pdf (uploaded_file : option UploadedFile) (st : session_state)
    : session_state * option sidebar_message :=
  match uploaded_file with
  | None => (st, None)
  | Some file =>
      match extract_text file with
      | Raise e => (st, Some (sidebar_error e))
      | Ok text =>
          let st :=
            {| patient_data := patient_data st; lab_data := lab_data st;
               pdf_text := Some text; conflicts := conflicts st |} in
          match parse_lab_results text with
          | Raise e => (st, Some (sidebar_error e))
          | Ok lab_data =>
              match detect_conflicts (patient_data st) lab_data with
              | Raise e => (st, Some (sidebar_error e))
              | Ok conflicts =>
                  ({| patient_data := patient_data st; lab_data := lab_data;
                      pdf_text := pdf_text st; conflicts := conflicts |},
                   Some match size conflicts with
                        | O => sidebar_success "Lab data extracted successfully!"
                        | found => sidebar_warning found
                        end)
              end
          end
      end
  end.

(** The upload [file] is read as the lab mapping [document]. *)
Definition extracts (file : UploadedFile) (document : gmap string (gmap string Py.val)) : Prop :=
  ∃ text, extract_text file = Ok text ∧ parse_lab_results text = Ok document.

End ProcessPdf.

(** The two options of the radio button of [render_conflict_chip], under the
    names the specification gives to the choices. *)
Inductive choice := use_form | use_document.

Definition radio_option (c : choice) : string :=
  match c with
  | use_form => "Keep form value"
  | use_document => "Use PDF value"
  end.

(** [render_conflict_chip]: the chip shows [conflict['form_value']] and
    [conflict['pdf_value']] (a missing key raises), then [resolution] is what
    the radio button returns. *)
Definition render_conflict_chip (test_name : string) (conflict : gmap string Py.val)
    (resolution : string) (st : session_state) : Py.result session_state :=
  try! _shown_form := Py.getitem conflict "form_value" in
  try! _shown_pdf := Py.getitem conflict "pdf_value" in
  if String.eqb resolution "Use PDF value" then
    try! pdf_value := Py.getitem conflict "pdf_value" in
    Ok {| patient_data := <[test_name := pdf_value]> (patient_data st);
          lab_data := lab_data st; pdf_text := pdf_text st;
          conflicts := conflicts st |}
  else Ok st.

(** Every record of the document carries a ['value']. *)
Definition has_values (document : gmap string (gmap string Py.val)) : Prop :=
  map_Forall (λ _ result, is_Some (result !! "value")) document.

(** What the loop of [process_pdf] leaves under [test_name] for one record. *)
Definition conflict_for (patient_data : gmap string Py.val)
    (test_name : string) (result : gmap string Py.val) : option (gmap string Py.val) :=
  let form_value := Py.get patient_data test_name VNone in
  match result !! "value" with
  | Some pdf_value =>
      if Py.truthy form_value && Py.ne form_value pdf_value then
        Some {[ "form_value" := form_value;
                "pdf_value" := pdf_value;
                "unit" := Py.get result "unit" (VStr "") ]}
      else None
  | None => None
  end.

Definition hba1c_rules : gmap string (gmap string (gmap string Py.val)) :=
  {[ "traffic" := {[ "hba1c" := {[ "green_max" := VFloat 7.0; "amber_max" := VFloat 9.0 ]} ]} ]}.


Definition inverted_rules : gmap string (gmap string (gmap string Py.val)) :=
  {[ "traffic" := {[ "hba1c" := {[ "green_max" := VFloat 9.0; "amber_max" := VFloat 7.0 ]} ]} ]}.

(** Both bounds of a threshold record, as the classifier reads them, are numbers. *)
Definition numeric_bounds (thresholds : gmap string Py.val) : bool :=
  Py.is_number (Py.get thresholds "green_max" (VFloat infinity))
  && Py.is_number (Py.get thresholds "amber_max" (VFloat infinity)).

(** The malformed catalogs, in the words of the specification of the load
    operation: some metric misses a required threshold key, has a non-numeric
    bound, or has [green_max > amber_max]. *)
Definition malformed_thresholds (thresholds : gmap string Py.val) : bool :=
  match thresholds !! "green_max", thresholds !! "amber_max" with
  | Some green_max, Some amber_max =>
      negb (Py.is_number green_max && Py.is_number amber_max)
      || match Py.lt amber_max green_max with Ok b => b | Raise _ => false end
  | _, _ => true
  end.

Definition malformed (rules : gmap string (gmap string (gmap string Py.val))) : Prop :=
  ∃ metric_name thresholds,
    Py.get rules "traffic" ∅ !! metric_name = Some thresholds
    ∧ malformed_thresholds thresholds = true.

(** The session as the module initialises it, and [save_patient_data]. *)
Definition initial_session : session_state :=
  {| patient_data := ∅; lab_data := ∅; pdf_text := None; conflicts := ∅ |}.

Definition save_patient_data (patient_data : gmap string Py.val) (st : session_state)
    : session_state :=
  {| patient_data := patient_data; lab_data := lab_data st;
     pdf_text := pdf_text st; conflicts := conflicts st |}.

(** Lab records and reports of the scenarios below. *)
Definition hba1c_record : gmap string Py.val :=
  {[ "value" := VFloat 9.4; "unit" := VStr "%" ]}.

Definition hba1c_report : gmap string (gmap string Py.val) :=
  {[ "hba1c" := hba1c_record ]}.

Definition same_hba1c_record : gmap string Py.val :=
  {[ "value" := VFloat 8.2; "unit" := VStr "%" ]}.

Definition same_hba1c_report : gmap string (gmap string Py.val) :=
  {[ "hba1c" := same_hba1c_record ]}.

Definition no_ketones_record : gmap string Py.val :=
  {[ "value" := VFloat 0.0; "unit" := VStr "mmol/L" ]}.

Definition ketones_record : gmap string Py.val :=
  {[ "value" := VFloat 1.5; "unit" := VStr "mmol/L" ]}.

Definition ketones_report : gmap string (gmap string Py.val) :=
  {[ "ketones" := ketones_record ]}.

(** A sample PDF processor: an upload is its text, and the parser knows four
    one-line reports. *)
Definition sample_extract_text (file : string) : Py.result string := Ok file.

Definition sample_parse_lab_results (text : string)
    : Py.result (gmap string (gmap string Py.val)) :=
  if String.eqb text "HbA1c 9.4 %" then Ok hba1c_report
  else if String.eqb text "HbA1c 8.2 %" then Ok same_hba1c_report
  else if String.eqb text "Ketones 0.0 mmol/L" then Ok {[ "ketones" := no_ketones_record ]}
  else if String.eqb text "Ketones 1.5 mmol/L" then Ok ketones_report
  else Raise (Py.CollaboratorError "unreadable report").

(** ** Scenarios *)

Definition hba1c_form : session_state :=
  save_patient_data {[ "hba1c" := VFloat 8.2 ]} initial_session.

Definition hba1c_conflict : gmap string Py.val :=
  {[ "form_value" := VFloat 8.2; "pdf_value" := VFloat 9.4; "unit" := VStr "%" ]}.

Definition ketones_form : session_state :=
  save_patient_data {[ "ketones" := VFloat 0.6 ]} initial_session.

Definition falsy_form (form_value : Py.val) : session_state :=
  save_patient_data {[ "ketones" := form_value ]} initial_session.

Definition sample_process_pdf (file : string) (st : session_state) : session_state :=
  (process_pdf sample_extract_text sample_parse_lab_results (Some file) st).1.

(** ** Further code of the two files *)

(** [get_traffic_light_emoji]: a dictionary lookup with a default
    ([src/rules/__init__.py]). *)
Definition get_traffic_light_emoji (status : string) : string :=
  Py.get ({[ "green" := "🟢"; "amber" := "🔶"; "red" := "🔴" ]} : gmap string string)
    status "⚪".

(** The order of the three statuses, best first. *)
Definition severity (status : string) : nat :=
  if String.eqb status "green" then 0
  else if String.eqb status "amber" then 1
  else 2.

(** The loop of [render_patient_form] over
    [st.session_state.conflicts.items()]: one chip per conflict.
    [radio test_name] is what the radio button with the key
    [resolve_<test_name>] returns.  An exception of a chip ends the loop. *)
Definition render_conflicts (radio : string → string) (st : session_state)
    : Py.result session_state :=
  map_fold
    (λ test_name conflict acc,
       try! st := acc in
       render_conflict_chip test_name conflict (radio test_name) st)
    (Ok st) (conflicts st).

(** [options.index(x)]: the first position whose element [== x], or
    [ValueError]. *)
Inductive index_result :=
| Index (i : nat)
| ValueError.

Fixpoint list_index (options : list string) (x : Py.val) : index_result :=
  match options with
  | [] => ValueError
  | entry :: rest =>
      if Py.eq (VStr entry) x then Index 0
      else match list_index rest x with
           | Index i => Index (S i)
           | ValueError => ValueError
           end
  end.

(** The preselected entry of the select boxes and radio buttons of
    [render_patient_form]:
    [index=0 if key not in data else options.index(data[key])]. *)
Definition selectbox_index (options : list string) (data : gmap string Py.val)
    (key : string) : index_result :=
  match data !! key with
  | None => Index 0
  | Some stored => list_index options stored
  end.

Definition sex_options : list string :=
  ["Male"; "Female"; "Other"; "Prefer not to say"].

Definition diabetes_type_options : list string :=
  ["Type 1"; "Type 2"; "LADA"; "MODY"; "Gestational"; "Other"].

(** A record of the document needs its ['value'] when the form value of its
    field is truthy. *)
Definition needs_value (patient_data : gmap string Py.val)
    (test_name : string) (result : gmap string Py.val) : Prop :=
  Py.truthy (Py.get patient_data test_name VNone) = true ∧ result !! "value" = None.

(** Every conflict of the table has the two keys a chip displays. *)
Definition chips_renderable (table : gmap string (gmap string Py.val)) : Prop :=
  map_Forall (λ _ conflict,
    is_Some (conflict !! "form_value") ∧ is_Some (conflict !! "pdf_value")) table.

(** A catalog with missing and ill-typed bounds. *)
Definition partial_rules : gmap string (gmap string (gmap string Py.val)) :=
  {[ "traffic" := {[ "hba1c" := {[ "green_max" := VFloat 7.0 ]};
                     "bmi" := ∅;
                     "ldl" := {[ "green_max" := VFloat 2.0; "amber_max" := VStr "3.0" ]} ]} ]}.

(** A report whose only record has no ['value'], and a parser that reads
    every text as a given document. *)
Definition valueless_report : gmap string (gmap string Py.val) :=
  {[ "hba1c" := {[ "unit" := VStr "%" ]} ]}.

Definition parse_as (document : gmap string (gmap string Py.val)) (text : string)
    : Py.result (gmap string (gmap string Py.val)) :=
  Ok document.

Definition ketones_conflict : gmap string Py.val :=
  {[ "form_value" := VFloat 0.6; "pdf_value" := VFloat 1.5; "unit" := VStr "mmol/L" ]}.

(** The session after the HbA1c report was read and its value accepted. *)
Definition accepted_session : session_state :=
  {| patient_data := {[ "hba1c" := VFloat 9.4 ]};
     lab_data := hba1c_report;
     pdf_text := Some "HbA1c 9.4 %";
     conflicts := {[ "hba1c" := hba1c_conflict ]} |}.

(** Closes a goal with an instance of a theorem, both evaluated. *)
Ltac by_instance H := vm_compute in H; vm_compute; exact H.

(** ** Order facts about Python numbers *)

Section NumberOrder.
Import Py.

Lemma number_lt_le_false a b : number_lt a b = true → number_le b a = false.
Proof.
  unfold number_lt. destruct a as [| |p|], b as [| |q|]; simpl; try done.
  rewrite andb_true_iff, negb_true_iff, Qle_bool_iff.
  intros [Hle Hne]. apply Qeq_bool_neq in Hne.
  destruct (Qle_bool q p) eqn:Hqp; [|done].
  apply Qle_bool_iff in Hqp. destruct Hne. by apply Qle_antisym.
Qed.

Lemma number_le_trans a b c :
  number_le a b = true → number_le b c = true → number_le a c = true.
Proof.
  destruct a as [| |p|], b as [| |q|], c as [| |r|]; simpl; try done.
  rewrite !Qle_bool_iff. apply Qle_trans.
Qed.

Lemma number_above_amber_not_green g a v :
  number_le g a = true → number_lt a v = true → number_le v g = false.
Proof.
  intros Hga Hav. destruct (number_le v g) eqn:Hvg; [|done].
  apply number_lt_le_false in Hav.
  by rewrite (number_le_trans _ _ _ Hvg Hga) in Hav.
Qed.

Lemma is_number_as_number v : is_number v = true → ∃ x, as_number v = Some x.
Proof. unfold is_number. destruct (as_number v); [eauto|done]. Qed.

Lemma le_numbers v w x y :
  as_number v = Some x → as_number w = Some y → le v w = Ok (number_le x y).
Proof. destruct v, w; simpl; intros; simplify_eq; done. Qed.

Lemma lt_numbers v w x y :
  as_number v = Some x → as_number w = Some y → lt v w = Ok (number_lt x y).
Proof. destruct v, w; simpl; intros; simplify_eq; done. Qed.

Lemma le_not_number_l v w :
  is_number v = false → is_number w = true → le v w = Raise TypeError.
Proof. destruct v, w; simpl; done. Qed.

Lemma float_number_nan x : PrimFloat.is_nan x = true → float_number x = NaN.
Proof. intros H. unfold float_number, Prim2SF. by rewrite H. Qed.

End NumberOrder.

(** ** The traffic-light classifier *)

Section Classifier.

Implicit Types (metric_name : string) (value : Py.val).
Implicit Types (rules : gmap string (gmap string (gmap string Py.val))).

Lemma status_of_defined_metric metric_name value rules thresholds :
  Py.get rules "traffic" ∅ !! metric_name = Some thresholds →
  get_traffic_light_status metric_name value rules =
    try! below_green := Py.le value (Py.get thresholds "green_max" (VFloat infinity)) in
    if below_green then Ok "green"
    else
      try! below_amber := Py.le value (Py.get thresholds "amber_max" (VFloat infinity)) in
      if below_amber then Ok "amber" else Ok "red".
Proof. intros H. unfold get_traffic_light_status. by rewrite H. Qed.

Lemma status_of_undefined_metric metric_name value rules :
  Py.get rules "traffic" ∅ !! metric_name = None →
  get_traffic_light_status metric_name value rules = Ok "amber".
Proof. intros H. unfold get_traffic_light_status. by rewrite H. Qed.

(** C2 (as the code has it): a metric without an entry in the ['traffic']
    section of the catalog is classified ['amber'], whatever the value is
    (a number, NaN, a string, [None]), and no exception is raised. *)
Theorem undefined_metric_is_amber metric_name value rules :
  Py.get rules "traffic" ∅ !! metric_name = None →
  get_traffic_light_status metric_name value rules = Ok "amber".
Proof. apply status_of_undefined_metric. Qed.

(** C3 (as the code has it): over a catalog with numeric bounds, the
    classifier is total on numeric values (booleans, integers, floats, the
    infinities and NaN) and answers ['green'], ['amber'] or ['red'], never
    ['unknown']; NaN for a defined metric is ['red']; a value that is not a
    number ([None], a string) for a defined metric raises [TypeError]. *)
Theorem classifier_total_on_numbers metric_name rules :
  (∀ thresholds, Py.get rules "traffic" ∅ !! metric_name = Some thresholds →
                 numeric_bounds thresholds = true) →
  (∀ value, Py.is_number value = true →
     ∃ status, get_traffic_light_status metric_name value rules = Ok status
               ∧ status ∈ ["green"; "amber"; "red"])
  ∧ (∀ thresholds x, Py.get rules "traffic" ∅ !! metric_name = Some thresholds →
       PrimFloat.is_nan x = true →
       get_traffic_light_status metric_name (VFloat x) rules = Ok "red")
  ∧ (∀ thresholds value, Py.get rules "traffic" ∅ !! metric_name = Some thresholds →
       Py.is_number value = false →
       get_traffic_light_status metric_name value rules = Raise Py.TypeError).
Proof.
  intros Hnum. split; [|split].
  - intros value Hv.
    destruct (Py.get rules "traffic" ∅ !! metric_name) as [th|] eqn:Hth.
    + rewrite (status_of_defined_metric _ _ _ _ Hth).
      specialize (Hnum th eq_refl). unfold numeric_bounds in Hnum.
      apply andb_true_iff in Hnum as [Hg Ha].
      apply is_number_as_number in Hv as [x Hx].
      apply is_number_as_number in Hg as [g Hg].
      apply is_number_as_number in Ha as [a Ha].
      rewrite (le_numbers _ _ _ _ Hx Hg), (le_numbers _ _ _ _ Hx Ha). simpl.
      destruct (Py.number_le x g); [|destruct (Py.number_le x a)];
        eexists; (split; [reflexivity|]); set_solver.
    + rewrite status_of_undefined_metric by done.
      eexists; split; [reflexivity|]. set_solver.
  - intros th x Hth Hnan.
    rewrite (status_of_defined_metric _ _ _ _ Hth).
    specialize (Hnum th Hth). unfold numeric_bounds in Hnum.
    apply andb_true_iff in Hnum as [Hg Ha].
    apply is_number_as_number in Hg as [g Hg].
    apply is_number_as_number in Ha as [a Ha].
    assert (Hx : Py.as_number (VFloat x) = Some Py.NaN).
    { simpl. by rewrite float_number_nan. }
    by rewrite (le_numbers _ _ _ _ Hx Hg), (le_numbers _ _ _ _ Hx Ha).
  - intros th value Hth Hv.
    rewrite (status_of_defined_metric _ _ _ _ Hth).
    specialize (Hnum th Hth). unfold numeric_bounds in Hnum.
    apply andb_true_iff in Hnum as [Hg _].
    by rewrite (le_not_number_l _ _ Hv Hg).
Qed.

(** C4 (as the code has it): for a metric of the catalog with numeric
    thresholds, whatever its direction, a numeric value is ['green'] when
    [value <= green_max] and ['amber'] when [green_max < value <= amber_max];
    it is ['red'] when [value > amber_max] provided
    [green_max <= amber_max], an ordering that the code never checks. *)
Theorem higher_is_worse_bands metric_name value rules thresholds green_max amber_max :
  Py.get rules "traffic" ∅ !! metric_name = Some thresholds →
  thresholds !! "green_max" = Some green_max →
  thresholds !! "amber_max" = Some amber_max →
  Py.is_number green_max = true →
  Py.is_number amber_max = true →
  Py.is_number value = true →
  (Py.le value green_max = Ok true →
     get_traffic_light_status metric_name value rules = Ok "green")
  ∧ (Py.lt green_max value = Ok true → Py.le value amber_max = Ok true →
     get_traffic_light_status metric_name value rules = Ok "amber")
  ∧ (Py.le green_max amber_max = Ok true → Py.lt amber_max value = Ok true →
     get_traffic_light_status metric_name value rules = Ok "red").
Proof.
  intros Hth Hgm Ham Hg Ha Hv.
  rewrite (status_of_defined_metric _ _ _ _ Hth).
  unfold Py.get. rewrite Hgm, Ham.
  apply is_number_as_number in Hv as [x Hx].
  apply is_number_as_number in Hg as [g Hg].
  apply is_number_as_number in Ha as [a Ha].
  rewrite (le_numbers _ _ _ _ Hg Ha).
  rewrite (le_numbers _ _ _ _ Hx Hg), (le_numbers _ _ _ _ Hx Ha).
  rewrite (lt_numbers _ _ _ _ Hg Hx), (lt_numbers _ _ _ _ Ha Hx).
  simpl. split; [|split].
  - intros [= ->]. done.
  - intros [= Hlt] [= ->]. by rewrite (number_lt_le_false _ _ Hlt).
  - intros [= Hga] [= Hlt].
    rewrite (number_above_amber_not_green _ _ _ Hga Hlt).
    by rewrite (number_lt_le_false _ _ Hlt).
Qed.

(** C9 (as the code has it): [load_rules] performs no validation.  It
    returns the parsed JSON document unchanged, malformed thresholds or not,
    and fails only when the file cannot be opened or is not JSON. *)
Theorem load_rules_returns_document (rules_json : rules_file) :
  (∀ rules, load_rules rules_json = Ok rules ↔ rules_json = Json rules)
  ∧ (∀ e, load_rules rules_json = Raise e ↔
          (rules_json = NoSuchFile ∧ e = Py.FileNotFoundError)
          ∨ (rules_json = NotJson ∧ e = Py.JSONDecodeError)).
Proof.
  split.
  - intros rules. destruct rules_json; simpl; split; intros H; by simplify_eq.
  - intros e. destruct rules_json; simpl; split;
      try (intros [[? ?]|[? ?]]; by simplify_eq);
      intros H; simplify_eq; auto.
Qed.

End Classifier.

Lemma hba1c_rules_numeric thresholds :
  Py.get hba1c_rules "traffic" ∅ !! "hba1c" = Some thresholds →
  numeric_bounds thresholds = true.
Proof. vm_compute. by intros [= <-]. Qed.

Lemma undefined_metric_is_amber_witness :
  Py.get hba1c_rules "traffic" ∅ !! "bmi" = None
  ∧ get_traffic_light_status "bmi" (VStr "n/a") hba1c_rules = Ok "amber".
Proof.
  split; [reflexivity|].
  apply (undefined_metric_is_amber "bmi" (VStr "n/a") hba1c_rules). reflexivity.
Defined.

(** C2 fails as stated: the metric ["bmi"] has no entry in the catalog, and
    its status is ['amber'], not ['unknown']. *)
Lemma undefined_metric_not_unknown :
  Py.get hba1c_rules "traffic" ∅ !! "bmi" = None
  ∧ get_traffic_light_status "bmi" (VFloat 27.5) hba1c_rules = Ok "amber"
  ∧ get_traffic_light_status "bmi" (VFloat 27.5) hba1c_rules ≠ Ok "unknown".
Proof. split; [reflexivity|]. split; [reflexivity|done]. Qed.

Lemma classifier_total_on_numbers_witness :
  (∃ status, get_traffic_light_status "hba1c" (VInt 8) hba1c_rules = Ok status
             ∧ status ∈ ["green"; "amber"; "red"])
  ∧ get_traffic_light_status "hba1c" (VFloat nan) hba1c_rules = Ok "red"
  ∧ get_traffic_light_status "hba1c" (VNone) hba1c_rules = Raise Py.TypeError.
Proof.
  destruct (classifier_total_on_numbers "hba1c" hba1c_rules hba1c_rules_numeric)
    as (Hnum & Hnan & Hother).
  split; [|split].
  - apply Hnum. reflexivity.
  - apply (Hnan {[ "green_max" := VFloat 7.0; "amber_max" := VFloat 9.0 ]}); reflexivity.
  - apply (Hother {[ "green_max" := VFloat 7.0; "amber_max" := VFloat 9.0 ]}); reflexivity.
Defined.

(** C3 fails as stated: for the defined metric ["hba1c"], NaN is classified
    ['red'] (not ['unknown']), and a string raises [TypeError]. *)
Lemma classifier_nan_red_string_raises :
  get_traffic_light_status "hba1c" (VFloat nan) hba1c_rules = Ok "red"
  ∧ get_traffic_light_status "hba1c" (VStr "high") hba1c_rules = Raise Py.TypeError.
Proof. split; vm_compute; reflexivity. Qed.

Lemma higher_is_worse_bands_witness :
  get_traffic_light_status "hba1c" (VFloat 6.9) hba1c_rules = Ok "green"
  ∧ get_traffic_light_status "hba1c" (VFloat 7.0) hba1c_rules = Ok "green"
  ∧ get_traffic_light_status "hba1c" (VFloat 8.5) hba1c_rules = Ok "amber"
  ∧ get_traffic_light_status "hba1c" (VFloat 9.1) hba1c_rules = Ok "red".
Proof.
  pose proof (λ value Hv,
    higher_is_worse_bands "hba1c" value hba1c_rules
      {[ "green_max" := VFloat 7.0; "amber_max" := VFloat 9.0 ]}
      (VFloat 7.0) (VFloat 9.0) eq_refl eq_refl eq_refl eq_refl eq_refl Hv)
    as bands.
  split; [|split; [|split]].
  - apply (bands (VFloat 6.9) eq_refl). reflexivity.
  - apply (bands (VFloat 7.0) eq_refl). reflexivity.
  - apply (bands (VFloat 8.5) eq_refl); reflexivity.
  - apply (bands (VFloat 9.1) eq_refl); reflexivity.
Defined.

(** C4 fails as stated: [inverted_rules] defines ["hba1c"] with the numeric
    thresholds [green_max = 9.0] and [amber_max = 7.0]; the value 8.0 is
    above [amber_max], and its status is ['green'], not ['red']. *)
Lemma inverted_rules_bands_overlap :
  Py.lt (VFloat 7.0) (VFloat 8.0) = Ok true
  ∧ get_traffic_light_status "hba1c" (VFloat 8.0) inverted_rules = Ok "green".
Proof. split; vm_compute; reflexivity. Qed.

(** C9 fails as stated: a catalog with [green_max = 9.0 > amber_max = 7.0] is
    malformed in the sense of the specification, yet it loads without error. *)
Lemma inverted_rules_load :
  malformed inverted_rules
  ∧ load_rules (Json inverted_rules) = Ok inverted_rules.
Proof.
  split; [|reflexivity].
  exists "hba1c", {[ "green_max" := VFloat 9.0; "amber_max" := VFloat 7.0 ]}.
  split; reflexivity.
Qed.

(** ** The conflict-detection loop *)

Lemma detect_conflicts_lookup patient_data document :
  has_values document →
  ∃ conflicts, detect_conflicts patient_data document = Ok conflicts
    ∧ ∀ test_name, conflicts !! test_name
                   = document !! test_name ≫= conflict_for patient_data test_name.
Proof.
  unfold detect_conflicts, has_values.
  apply (map_fold_weak_ind (λ acc m,
    map_Forall (λ _ result, is_Some (result !! "value")) m →
    ∃ conflicts, acc = Ok conflicts
      ∧ ∀ test_name, conflicts !! test_name = m !! test_name ≫= conflict_for patient_data test_name)).
  - intros _. exists ∅. split; [done|]. intros k. by rewrite !lookup_empty.
  - intros i x m r Hi IH Hall.
    apply map_Forall_insert in Hall as [[pdf Hpdf] Hall]; [|done].
    destruct (IH Hall) as (cs & -> & Hcs). clear IH.
    unfold detect_conflict, Py.bind, Py.getitem. rewrite Hpdf.
    assert (Hx : conflict_for patient_data i x =
      if Py.truthy (Py.get patient_data i VNone) && Py.ne (Py.get patient_data i VNone) pdf
      then Some {[ "form_value" := Py.get patient_data i VNone; "pdf_value" := pdf;
                   "unit" := Py.get x "unit" (VStr "") ]} else None).
    { unfold conflict_for. by rewrite Hpdf. }
    destruct (Py.truthy _) eqn:Ht; simpl in Hx.
    + destruct (Py.ne _ _) eqn:Hne.
      * eexists; split; [done|]. intros k.
        destruct (decide (k = i)) as [->|Hk].
        -- rewrite !lookup_insert_eq. simpl. by rewrite Hx.
        -- rewrite !lookup_insert_ne by done. apply Hcs.
      * exists cs; split; [done|]. intros k.
        destruct (decide (k = i)) as [->|Hk].
        -- rewrite lookup_insert_eq, Hcs, Hi. simpl. by rewrite Hx.
        -- rewrite lookup_insert_ne by done. apply Hcs.
    + exists cs; split; [done|]. intros k.
      destruct (decide (k = i)) as [->|Hk].
      -- rewrite lookup_insert_eq, Hcs, Hi. simpl. by rewrite Hx.
      -- rewrite lookup_insert_ne by done. apply Hcs.
Qed.

(** ** Reconciliation: [process_pdf] as merge, [render_conflict_chip] as resolve *)

Section Reconciliation.

Context {UploadedFile : Type}.
Variable extract_text : UploadedFile → Py.result string.
Variable parse_lab_results : string → Py.result (gmap string (gmap string Py.val)).

Implicit Types (st : session_state) (file : UploadedFile) (field : string).
Implicit Types (document : gmap string (gmap string Py.val)).

(** The session after [process_pdf(file)]. *)
Local Abbreviation merge file st :=
  (process_pdf extract_text parse_lab_results (Some file) st).1.

Lemma process_pdf_extracts file document st :
  extracts extract_text parse_lab_results file document →
  has_values document →
  ∃ text found,
    detect_conflicts (patient_data st) document = Ok found
    ∧ (∀ field, found !! field
                = document !! field ≫= conflict_for (patient_data st) field)
    ∧ merge file st =
        {| patient_data := patient_data st; lab_data := document;
           pdf_text := Some text; conflicts := found |}.
Proof.
  intros (text & Htext & Hdoc) Hvalues.
  destruct (detect_conflicts_lookup (patient_data st) document Hvalues)
    as (found & Hfound & Hlookup).
  exists text, found. split; [done|]. split; [done|].
  unfold process_pdf. rewrite Htext, Hdoc. simpl. by rewrite Hfound.
Qed.

Lemma merge_conflict_lookup file document st field :
  extracts extract_text parse_lab_results file document →
  has_values document →
  conflicts (merge file st) !! field
    = document !! field ≫= conflict_for (patient_data st) field.
Proof.
  intros Hex Hvalues.
  destruct (process_pdf_extracts file document st Hex Hvalues)
    as (text & found & _ & Hlookup & ->). apply Hlookup.
Qed.

Lemma merge_keeps_patient_data file document st :
  extracts extract_text parse_lab_results file document →
  has_values document →
  patient_data (merge file st) = patient_data st
  ∧ lab_data (merge file st) = document.
Proof.
  intros Hex Hvalues.
  by destruct (process_pdf_extracts file document st Hex Hvalues)
    as (text & found & _ & _ & ->).
Qed.

Lemma conflict_for_truthy_differing patient_data field result form_value pdf_value :
  patient_data !! field = Some form_value →
  result !! "value" = Some pdf_value →
  Py.truthy form_value = true →
  Py.ne form_value pdf_value = true →
  conflict_for patient_data field result
    = Some {[ "form_value" := form_value; "pdf_value" := pdf_value;
              "unit" := Py.get result "unit" (VStr "") ]}.
Proof.
  intros Hform Hvalue Ht Hne. unfold conflict_for, Py.get at 1 2 3.
  by rewrite Hform, Hvalue, Ht, Hne.
Qed.

Lemma conflict_for_Some patient_data field result conflict :
  conflict_for patient_data field result = Some conflict →
  ∃ form_value pdf_value,
    patient_data !! field = Some form_value
    ∧ result !! "value" = Some pdf_value
    ∧ Py.truthy form_value = true
    ∧ Py.ne form_value pdf_value = true.
Proof.
  unfold conflict_for, Py.get.
  destruct (result !! "value") as [pdf_value|]; [|done].
  destruct (patient_data !! field) as [form_value|]; [|done].
  destruct (Py.truthy form_value) eqn:Ht; [|done].
  destruct (Py.ne form_value pdf_value) eqn:Hne; [|done].
  intros _. by exists form_value, pdf_value.
Qed.

(** C1 (as the code has it): when the form value of a field is truthy and
    differs from the document value, the merge leaves one conflict under the
    field name, holding the form value, the document value and the unit
    (the empty string when the record has none); the patient snapshot is
    not touched, so it still holds the form value of that field. *)
Theorem differing_field_gets_one_conflict
    file document st field form_value result pdf_value :
  extracts extract_text parse_lab_results file document →
  has_values document →
  patient_data st !! field = Some form_value →
  document !! field = Some result →
  result !! "value" = Some pdf_value →
  Py.truthy form_value = true →
  Py.ne form_value pdf_value = true →
  conflicts (merge file st) !! field
    = Some {[ "form_value" := form_value; "pdf_value" := pdf_value;
              "unit" := Py.get result "unit" (VStr "") ]}
  ∧ patient_data (merge file st) = patient_data st
  ∧ patient_data (merge file st) !! field = Some form_value.
Proof.
  intros Hex Hvalues Hform Hdoc Hvalue Ht Hne.
  destruct (merge_keeps_patient_data file document st Hex Hvalues) as [Hpd _].
  rewrite (merge_conflict_lookup file document st field Hex Hvalues), Hdoc, Hpd.
  simpl. split; [|done].
  by apply conflict_for_truthy_differing.
Qed.

(** C5 (as the code has it): a field of the document that the form does not
    have gets no conflict; the merge does not copy its value into the
    patient snapshot (the field stays absent there), the record is only
    kept in the session's [lab_data]. *)
Theorem document_only_field_not_adopted file document st field result :
  extracts extract_text parse_lab_results file document →
  has_values document →
  patient_data st !! field = None →
  document !! field = Some result →
  conflicts (merge file st) !! field = None
  ∧ patient_data (merge file st) !! field = None
  ∧ lab_data (merge file st) !! field = Some result.
Proof.
  intros Hex Hvalues Hform Hdoc.
  destruct (merge_keeps_patient_data file document st Hex Hvalues) as [-> ->].
  rewrite (merge_conflict_lookup file document st field Hex Hvalues), Hdoc.
  split; [|done]. simpl. unfold conflict_for, Py.get. rewrite Hform. simpl.
  by destruct (result !! "value").
Qed.

(** C8: when the form and the document agree ([==]) on every field they
    share, the merge records no conflict at all and the merged snapshot is
    the form snapshot. *)
Theorem agreement_gives_no_conflict file document st :
  extracts extract_text parse_lab_results file document →
  has_values document →
  (∀ field form_value result pdf_value,
     patient_data st !! field = Some form_value →
     document !! field = Some result →
     result !! "value" = Some pdf_value →
     Py.eq form_value pdf_value = true) →
  conflicts (merge file st) = ∅
  ∧ patient_data (merge file st) = patient_data st.
Proof.
  intros Hex Hvalues Hagree.
  destruct (merge_keeps_patient_data file document st Hex Hvalues) as [-> _].
  split; [|done]. apply map_empty. intros field.
  rewrite (merge_conflict_lookup file document st field Hex Hvalues).
  destruct (document !! field) as [result|] eqn:Hdoc; [simpl|done].
  destruct (conflict_for (patient_data st) field result) as [conflict|] eqn:Hc; [|done].
  apply conflict_for_Some in Hc as (form_value & pdf_value & Hform & Hvalue & _ & Hne).
  unfold Py.ne in Hne.
  by rewrite (Hagree field form_value result pdf_value Hform Hdoc Hvalue) in Hne.
Qed.

(** C10: a field whose form value is falsy ([0], [0.0], [''], [False],
    [None] or no entry) gets no conflict, whatever the document says; a
    conflict is recorded exactly for the fields whose form value is truthy
    and differs from the document value. *)
Theorem falsy_form_value_never_conflicts file document st field :
  extracts extract_text parse_lab_results file document →
  has_values document →
  (Py.truthy (Py.get (patient_data st) field VNone) = false →
     conflicts (merge file st) !! field = None)
  ∧ (is_Some (conflicts (merge file st) !! field) ↔
     ∃ form_value result pdf_value,
       patient_data st !! field = Some form_value
       ∧ document !! field = Some result
       ∧ result !! "value" = Some pdf_value
       ∧ Py.truthy form_value = true
       ∧ Py.ne form_value pdf_value = true).
Proof.
  intros Hex Hvalues.
  rewrite (merge_conflict_lookup file document st field Hex Hvalues).
  split.
  - intros Hfalsy. destruct (document !! field) as [result|]; [simpl|done].
    unfold conflict_for. rewrite Hfalsy. by destruct (result !! "value").
  - split.
    + intros [conflict Hc].
      destruct (document !! field) as [result|] eqn:Hdoc; [simpl in Hc|done].
      apply conflict_for_Some in Hc as (form_value & pdf_value & ? & ? & ? & ?).
      by exists form_value, result, pdf_value.
    + intros (form_value & result & pdf_value & Hform & Hdoc & Hvalue & Ht & Hne).
      rewrite Hdoc. simpl.
      by rewrite (conflict_for_truthy_differing _ _ _ _ _ Hform Hvalue Ht Hne).
Qed.

(** C6 (as the code has it): after a resolution, a new [process_pdf] run
    rebuilds the conflict table from the current patient snapshot and the
    new document alone.  A field whose current form value is truthy and
    differs from the new document value gets a fresh conflict entry with
    the three keys ['form_value'], ['pdf_value'], ['unit'] and no
    resolution recorded in it; neither the earlier table nor the earlier
    choice is consulted. *)
Theorem remerge_rebuilds_conflicts
    file document st0 st field conflict c form_value result pdf_value :
  render_conflict_chip field conflict (radio_option c) st0 = Ok st →
  extracts extract_text parse_lab_results file document →
  has_values document →
  patient_data st !! field = Some form_value →
  document !! field = Some result →
  result !! "value" = Some pdf_value →
  Py.truthy form_value = true →
  Py.ne form_value pdf_value = true →
  conflicts (merge file st) !! field
    = Some {[ "form_value" := form_value; "pdf_value" := pdf_value;
              "unit" := Py.get result "unit" (VStr "") ]}
  ∧ conflicts (merge file st) !! field ≫= (.!! "resolution") = None
  ∧ detect_conflicts (patient_data st) document = Ok (conflicts (merge file st))
  ∧ (∀ st', patient_data st' = patient_data st →
       conflicts (merge file st') = conflicts (merge file st)).
Proof.
  intros _ Hex Hvalues Hform Hdoc Hvalue Ht Hne.
  assert (Hentry : conflicts (merge file st) !! field
    = Some {[ "form_value" := form_value; "pdf_value" := pdf_value;
              "unit" := Py.get result "unit" (VStr "") ]}).
  { rewrite (merge_conflict_lookup file document st field Hex Hvalues), Hdoc.
    by apply conflict_for_truthy_differing. }
  split; [done|]. split; [by rewrite Hentry|].
  destruct (process_pdf_extracts file document st Hex Hvalues)
    as (text & found & Hfound & _ & Hst).
  split; [by rewrite Hst|].
  intros st' Hsame.
  destruct (process_pdf_extracts file document st' Hex Hvalues)
    as (text' & found' & Hfound' & _ & Hst').
  rewrite Hst, Hst'. simpl. rewrite Hsame in Hfound'. congruence.
Qed.

End Reconciliation.

(** C7 (as the code has it): resolving is idempotent and never touches the
    conflict table.  With "Use PDF value" it sets the conflict's field to the
    PDF value and leaves every other field alone; with "Keep form value" it
    changes nothing.  The choice is not recorded in the conflict. *)
Theorem resolve_idempotent field conflict form_value pdf_value c st :
  conflict !! "form_value" = Some form_value →
  conflict !! "pdf_value" = Some pdf_value →
  ∃ st1,
    render_conflict_chip field conflict (radio_option c) st = Ok st1
    ∧ render_conflict_chip field conflict (radio_option c) st1 = Ok st1
    ∧ patient_data st1
        = match c with
          | use_form => patient_data st
          | use_document => <[field := pdf_value]> (patient_data st)
          end
    ∧ (∀ other, other ≠ field → patient_data st1 !! other = patient_data st !! other)
    ∧ conflicts st1 = conflicts st
    ∧ lab_data st1 = lab_data st.
Proof.
  intros Hform Hpdf. unfold render_conflict_chip, Py.getitem.
  rewrite Hform, Hpdf. destruct c; simpl.
  - exists st. by repeat split.
  - eexists. split; [reflexivity|]. simpl. rewrite insert_insert_eq.
    repeat split; try done.
    intros other Hother. by rewrite lookup_insert_ne.
Qed.

(** ** Witnesses and counterexamples of the reconciliation *)

Lemma sample_extracts file document :
  sample_parse_lab_results file = Ok document →
  extracts sample_extract_text sample_parse_lab_results file document.
Proof. intros H. by exists file. Qed.

Lemma has_values_singleton test_name result pdf_value :
  result !! "value" = Some pdf_value → has_values {[ test_name := result ]}.
Proof. intros H. apply map_Forall_singleton. by exists pdf_value. Qed.

Lemma differing_field_gets_one_conflict_witness :
  conflicts (sample_process_pdf "HbA1c 9.4 %" hba1c_form) !! "hba1c" = Some hba1c_conflict
  ∧ patient_data (sample_process_pdf "HbA1c 9.4 %" hba1c_form) = patient_data hba1c_form
  ∧ patient_data (sample_process_pdf "HbA1c 9.4 %" hba1c_form) !! "hba1c"
      = Some (VFloat 8.2).
Proof.
  pose proof (differing_field_gets_one_conflict
    sample_extract_text sample_parse_lab_results
    "HbA1c 9.4 %" hba1c_report hba1c_form "hba1c" (VFloat 8.2)
    hba1c_record (VFloat 9.4)
    (sample_extracts "HbA1c 9.4 %" hba1c_report eq_refl)
    (has_values_singleton "hba1c" hba1c_record (VFloat 9.4) eq_refl)
    eq_refl eq_refl eq_refl eq_refl eq_refl) as instance.
  by_instance instance.
Defined.

(** C1 fails as stated: the form says 8.2, the report 9.4; after the merge
    the conflict is pending and the patient snapshot still holds the form
    value 8.2 for the field. *)
Lemma pending_conflict_keeps_form_value :
  conflicts (sample_process_pdf "HbA1c 9.4 %" hba1c_form) !! "hba1c" = Some hba1c_conflict
  ∧ patient_data (sample_process_pdf "HbA1c 9.4 %" hba1c_form) !! "hba1c"
      = Some (VFloat 8.2).
Proof. split; vm_compute; reflexivity. Qed.

Lemma document_only_field_not_adopted_witness :
  conflicts (sample_process_pdf "HbA1c 9.4 %" initial_session) !! "hba1c" = None
  ∧ patient_data (sample_process_pdf "HbA1c 9.4 %" initial_session) !! "hba1c" = None
  ∧ lab_data (sample_process_pdf "HbA1c 9.4 %" initial_session) !! "hba1c"
      = Some hba1c_record.
Proof.
  pose proof (document_only_field_not_adopted
    sample_extract_text sample_parse_lab_results
    "HbA1c 9.4 %" hba1c_report initial_session "hba1c" hba1c_record
    (sample_extracts "HbA1c 9.4 %" hba1c_report eq_refl)
    (has_values_singleton "hba1c" hba1c_record (VFloat 9.4) eq_refl)
    eq_refl eq_refl) as instance.
  by_instance instance.
Defined.

(** C5 fails as stated: the form has no ["hba1c"], the report has 9.4; after
    the merge the patient snapshot still has no ["hba1c"]. *)
Lemma document_value_not_in_snapshot :
  patient_data initial_session !! "hba1c" = None
  ∧ hba1c_report !! "hba1c" = Some hba1c_record
  ∧ lab_data (sample_process_pdf "HbA1c 9.4 %" initial_session) = hba1c_report
  ∧ patient_data (sample_process_pdf "HbA1c 9.4 %" initial_session) !! "hba1c" = None.
Proof. repeat split; vm_compute; reflexivity. Qed.

Lemma agreement_gives_no_conflict_witness :
  conflicts (sample_process_pdf "HbA1c 8.2 %" hba1c_form) = ∅
  ∧ patient_data (sample_process_pdf "HbA1c 8.2 %" hba1c_form) = patient_data hba1c_form.
Proof.
  assert (agree : ∀ field form_value result pdf_value,
    patient_data hba1c_form !! field = Some form_value →
    same_hba1c_report !! field = Some result →
    result !! "value" = Some pdf_value →
    Py.eq form_value pdf_value = true).
  { intros field form_value result pdf_value Hform Hdoc Hvalue.
    unfold hba1c_form, save_patient_data in Hform. simpl in Hform.
    unfold same_hba1c_report in Hdoc.
    apply lookup_singleton_Some in Hform as [<- <-].
    apply lookup_singleton_Some in Hdoc as [_ <-].
    vm_compute in Hvalue. injection Hvalue as <-. reflexivity. }
  pose proof (agreement_gives_no_conflict
    sample_extract_text sample_parse_lab_results
    "HbA1c 8.2 %" same_hba1c_report hba1c_form
    (sample_extracts "HbA1c 8.2 %" same_hba1c_report eq_refl)
    (has_values_singleton "hba1c" same_hba1c_record (VFloat 8.2) eq_refl)
    agree) as instance.
  by_instance instance.
Defined.

Lemma falsy_form_value_never_conflicts_witness :
  conflicts (sample_process_pdf "Ketones 1.5 mmol/L" (falsy_form (VInt 0))) !! "ketones" = None
  ∧ conflicts (sample_process_pdf "Ketones 1.5 mmol/L" (falsy_form (VFloat 0.0))) !! "ketones" = None
  ∧ conflicts (sample_process_pdf "Ketones 1.5 mmol/L" (falsy_form (VStr ""))) !! "ketones" = None
  ∧ conflicts (sample_process_pdf "Ketones 1.5 mmol/L" (falsy_form (VBool false))) !! "ketones" = None
  ∧ conflicts (sample_process_pdf "Ketones 1.5 mmol/L" (falsy_form VNone)) !! "ketones" = None
  ∧ is_Some (conflicts (sample_process_pdf "Ketones 1.5 mmol/L" ketones_form) !! "ketones").
Proof.
  pose proof (λ st,
    falsy_form_value_never_conflicts sample_extract_text sample_parse_lab_results
      "Ketones 1.5 mmol/L" ketones_report st "ketones"
      (sample_extracts "Ketones 1.5 mmol/L" ketones_report eq_refl)
      (has_values_singleton "ketones" ketones_record (VFloat 1.5) eq_refl)) as never.
  split; [exact (proj1 (never (falsy_form (VInt 0))) eq_refl)|].
  split; [exact (proj1 (never (falsy_form (VFloat 0.0))) eq_refl)|].
  split; [exact (proj1 (never (falsy_form (VStr ""))) eq_refl)|].
  split; [exact (proj1 (never (falsy_form (VBool false))) eq_refl)|].
  split; [exact (proj1 (never (falsy_form VNone)) eq_refl)|].
  apply (proj2 (never ketones_form)).
  exists (VFloat 0.6), ketones_record, (VFloat 1.5).
  repeat split; reflexivity.
Defined.

Lemma remerge_rebuilds_conflicts_witness :
  conflicts (sample_process_pdf "HbA1c 9.4 %"
               (sample_process_pdf "HbA1c 9.4 %" hba1c_form)) !! "hba1c"
    = Some hba1c_conflict
  ∧ hba1c_conflict !! "resolution" = None.
Proof.
  destruct (remerge_rebuilds_conflicts
    sample_extract_text sample_parse_lab_results
    "HbA1c 9.4 %" hba1c_report
    (sample_process_pdf "HbA1c 9.4 %" hba1c_form)
    (sample_process_pdf "HbA1c 9.4 %" hba1c_form)
    "hba1c" hba1c_conflict use_form (VFloat 8.2)
    hba1c_record (VFloat 9.4)
    eq_refl (sample_extracts "HbA1c 9.4 %" hba1c_report eq_refl)
    (has_values_singleton "hba1c" hba1c_record (VFloat 9.4) eq_refl)
    eq_refl eq_refl eq_refl eq_refl eq_refl) as (entry & _).
  split; [by_instance entry|reflexivity].
Defined.

(** C6 fails as stated: the form says 0.6 and a first report 0.0; the
    conflict is resolved with "Use PDF value", so the form value becomes 0.0.
    A second report says 1.5: the two sources disagree again, yet the merge
    records no conflict for the field. *)
Lemma resolved_to_zero_hides_disagreement :
  ∃ conflict st,
    conflicts (sample_process_pdf "Ketones 0.0 mmol/L" ketones_form) !! "ketones"
      = Some conflict
    ∧ render_conflict_chip "ketones" conflict (radio_option use_document)
        (sample_process_pdf "Ketones 0.0 mmol/L" ketones_form) = Ok st
    ∧ patient_data st !! "ketones" = Some (VFloat 0.0)
    ∧ lab_data (sample_process_pdf "Ketones 1.5 mmol/L" st) = ketones_report
    ∧ Py.ne (VFloat 0.0) (VFloat 1.5) = true
    ∧ conflicts (sample_process_pdf "Ketones 1.5 mmol/L" st) !! "ketones" = None.
Proof.
  eexists _, _. split; [vm_compute; reflexivity|].
  split; [vm_compute; reflexivity|].
  repeat split; vm_compute; reflexivity.
Qed.

Lemma resolve_idempotent_witness :
  ∃ st1,
    render_conflict_chip "hba1c" hba1c_conflict "Use PDF value"
      (sample_process_pdf "HbA1c 9.4 %" hba1c_form) = Ok st1
    ∧ render_conflict_chip "hba1c" hba1c_conflict "Use PDF value" st1 = Ok st1
    ∧ patient_data st1 = {[ "hba1c" := VFloat 9.4 ]}
    ∧ conflicts st1 = {[ "hba1c" := hba1c_conflict ]}.
Proof.
  destruct (resolve_idempotent "hba1c" hba1c_conflict (VFloat 8.2) (VFloat 9.4)
              use_document (sample_process_pdf "HbA1c 9.4 %" hba1c_form)
              eq_refl eq_refl)
    as (st1 & Hfirst & Hsecond & Hdata & _ & Hconflicts & _).
  exists st1. split; [exact Hfirst|]. split; [exact Hsecond|].
  split; [rewrite Hdata|rewrite Hconflicts]; vm_compute; reflexivity.
Defined.

(** C7 fails as stated: "Keep form value" updates no field at all, and after
    "Use PDF value" the conflict of the table is unchanged and holds no
    resolution. *)
Lemma resolution_not_recorded :
  render_conflict_chip "hba1c" hba1c_conflict (radio_option use_form)
    (sample_process_pdf "HbA1c 9.4 %" hba1c_form)
    = Ok (sample_process_pdf "HbA1c 9.4 %" hba1c_form)
  ∧ ∃ st1,
      render_conflict_chip "hba1c" hba1c_conflict (radio_option use_document)
        (sample_process_pdf "HbA1c 9.4 %" hba1c_form) = Ok st1
      ∧ conflicts st1 !! "hba1c" = Some hba1c_conflict
      ∧ conflicts st1 !! "hba1c" ≫= (.!! "resolution") = None.
Proof.
  split; [vm_compute; reflexivity|].
  eexists. split; [vm_compute; reflexivity|].
  split; vm_compute; reflexivity.
Qed.

(** ** More on the classifier: emoji, monotonicity, defaults, lazy errors *)

Section ClassifierEdges.

Implicit Types (metric_name : string) (value : Py.val).
Implicit Types (rules : gmap string (gmap string (gmap string Py.val))).

Lemma le_number_l v w x :
  Py.as_number v = Some x →
  Py.le v w = match Py.as_number w with
              | Some y => Ok (Py.number_le x y)
              | None => Raise Py.TypeError
              end.
Proof. destruct v, w; simpl; intros; simplify_eq; done. Qed.

Lemma status_of_number metric_name value rules thresholds x :
  Py.get rules "traffic" ∅ !! metric_name = Some thresholds →
  Py.as_number value = Some x →
  get_traffic_light_status metric_name value rules =
    match Py.as_number (Py.get thresholds "green_max" (VFloat infinity)) with
    | None => Raise Py.TypeError
    | Some g =>
        if Py.number_le x g then Ok "green"
        else match Py.as_number (Py.get thresholds "amber_max" (VFloat infinity)) with
             | None => Raise Py.TypeError
             | Some a => if Py.number_le x a then Ok "amber" else Ok "red"
             end
    end.
Proof.
  intros Hth Hx. rewrite (status_of_defined_metric _ _ _ _ Hth).
  rewrite !(le_number_l _ _ _ Hx).
  destruct (Py.as_number (Py.get thresholds "green_max" _)) as [g|]; [simpl|done].
  destruct (Py.number_le x g); [done|].
  destruct (Py.as_number (Py.get thresholds "amber_max" _)) as [a|]; [simpl|done].
  by destruct (Py.number_le x a).
Qed.

(** X1: every status the classifier returns is one of the three colours, and
    [get_traffic_light_emoji] shows it with its own symbol, never with the
    fallback circle. *)
Theorem status_has_coloured_emoji metric_name value rules status :
  get_traffic_light_status metric_name value rules = Ok status →
  ((status = "green" ∧ get_traffic_light_emoji status = "🟢")
   ∨ (status = "amber" ∧ get_traffic_light_emoji status = "🔶")
   ∨ (status = "red" ∧ get_traffic_light_emoji status = "🔴"))
  ∧ get_traffic_light_emoji status ≠ "⚪".
Proof.
  unfold get_traffic_light_status.
  destruct (Py.get rules "traffic" ∅ !! metric_name) as [thresholds|].
  - unfold Py.bind.
    destruct (Py.le value (Py.get thresholds "green_max" _)) as [[]|]; [| |done].
    + intros [= <-]. split; [by left|done].
    + destruct (Py.le value (Py.get thresholds "amber_max" _)) as [[]|]; [| |done].
      * intros [= <-]. split; [right; by left|done].
      * intros [= <-]. split; [right; by right|done].
  - intros [= <-]. split; [right; by left|done].
Qed.

(** X2: the classifier is monotone.  For two numbers [value <= greater] and
    any threshold record, the status of [greater] is at least as severe as the
    status of [value] (green < amber < red), whenever both are classified. *)
Theorem classifier_monotone metric_name rules value greater status status' :
  Py.is_number value = true →
  Py.is_number greater = true →
  Py.le value greater = Ok true →
  get_traffic_light_status metric_name value rules = Ok status →
  get_traffic_light_status metric_name greater rules = Ok status' →
  (severity status ≤ severity status')%nat.
Proof.
  intros Hv Hw Hle.
  apply is_number_as_number in Hv as [x Hx].
  apply is_number_as_number in Hw as [y Hy].
  rewrite (le_numbers _ _ _ _ Hx Hy) in Hle. injection Hle as Hxy.
  destruct (Py.get rules "traffic" ∅ !! metric_name) as [thresholds|] eqn:Hth.
  - rewrite (status_of_number _ _ _ _ _ Hth Hx), (status_of_number _ _ _ _ _ Hth Hy).
    destruct (Py.as_number (Py.get thresholds "green_max" _)) as [g|]; [|done].
    destruct (Py.number_le y g) eqn:Hyg.
    + rewrite (number_le_trans _ _ _ Hxy Hyg). by intros [= <-] [= <-].
    + destruct (Py.as_number (Py.get thresholds "amber_max" _)) as [a|];
        [|by destruct (Py.number_le x g)].
      destruct (Py.number_le y a) eqn:Hya.
      * rewrite (number_le_trans _ _ _ Hxy Hya).
        destruct (Py.number_le x g); intros [= <-] [= <-]; unfold severity; simpl; lia.
      * destruct (Py.number_le x g); [|destruct (Py.number_le x a)];
          intros [= <-] [= <-]; unfold severity; simpl; lia.
  - rewrite !status_of_undefined_metric by done. by intros [= <-] [= <-].
Qed.

(** X3: a missing bound counts as infinity.  For a number other than NaN, a
    threshold record without ['amber_max'] never gives ['red'], and a record
    with neither bound gives ['green']. *)
Theorem missing_bound_is_infinity metric_name value rules thresholds :
  Py.get rules "traffic" ∅ !! metric_name = Some thresholds →
  thresholds !! "amber_max" = None →
  Py.is_number value = true →
  Py.eq value value = true →
  (thresholds !! "green_max" = None →
     get_traffic_light_status metric_name value rules = Ok "green")
  ∧ (Py.is_number (Py.get thresholds "green_max" (VFloat infinity)) = true →
     get_traffic_light_status metric_name value rules = Ok "green"
     ∨ get_traffic_light_status metric_name value rules = Ok "amber").
Proof.
  intros Hth Hamber Hv Hrefl.
  apply is_number_as_number in Hv as [x Hx].
  assert (Hinf : Py.number_le x Py.PosInf = true).
  { destruct value; simpl in *; simplify_eq; try done.
    - by destruct (Py.float_number _). }
  rewrite (status_of_number _ _ _ _ _ Hth Hx).
  assert (Ha : Py.as_number (Py.get thresholds "amber_max" (VFloat infinity))
               = Some Py.PosInf).
  { unfold Py.get. by rewrite Hamber. }
  rewrite Ha. split.
  - intros Hgreen. unfold Py.get. rewrite Hgreen.
    change (Py.as_number (VFloat infinity)) with (Some Py.PosInf).
    simpl. by rewrite Hinf.
  - intros Hg. apply is_number_as_number in Hg as [g ->].
    simpl. rewrite Hinf. destruct (Py.number_le x g); auto.
Qed.

(** X4: bounds are checked lazily.  With a numeric ['green_max'] and an
    ['amber_max'] that is not a number, a numeric value up to ['green_max'] is
    still ['green']; any numeric value above it raises [TypeError]. *)
Theorem bad_amber_max_raises_above_green
    metric_name value rules thresholds green_max amber_max :
  Py.get rules "traffic" ∅ !! metric_name = Some thresholds →
  thresholds !! "green_max" = Some green_max →
  thresholds !! "amber_max" = Some amber_max →
  Py.is_number green_max = true →
  Py.is_number amber_max = false →
  Py.is_number value = true →
  (Py.le value green_max = Ok true →
     get_traffic_light_status metric_name value rules = Ok "green")
  ∧ (Py.le value green_max = Ok false →
     get_traffic_light_status metric_name value rules = Raise Py.TypeError).
Proof.
  intros Hth Hgm Ham Hg Ha Hv.
  apply is_number_as_number in Hv as [x Hx].
  apply is_number_as_number in Hg as [g Hg].
  rewrite (status_of_number _ _ _ _ _ Hth Hx), (le_numbers _ _ _ _ Hx Hg).
  unfold Py.get. rewrite Hgm, Ham, Hg.
  unfold Py.is_number in Ha. destruct (Py.as_number amber_max); [done|].
  split; by intros [= ->].
Qed.

End ClassifierEdges.

Lemma status_has_coloured_emoji_witness :
  ((("amber" : string) = "green" ∧ get_traffic_light_emoji "amber" = "🟢")
   ∨ (("amber" : string) = "amber" ∧ get_traffic_light_emoji "amber" = "🔶")
   ∨ (("amber" : string) = "red" ∧ get_traffic_light_emoji "amber" = "🔴"))
  ∧ get_traffic_light_emoji "amber" ≠ "⚪".
Proof.
  apply (status_has_coloured_emoji "hba1c" (VFloat 8.5) hba1c_rules "amber").
  reflexivity.
Defined.

Lemma classifier_monotone_witness : (severity "green" ≤ severity "red")%nat.
Proof.
  apply (classifier_monotone "hba1c" hba1c_rules (VFloat 6.9) (VFloat 9.1));
    reflexivity.
Defined.

Lemma missing_bound_is_infinity_witness :
  get_traffic_light_status "bmi" (VFloat 1000.0) partial_rules = Ok "green"
  ∧ (get_traffic_light_status "hba1c" (VFloat 1000.0) partial_rules = Ok "green"
     ∨ get_traffic_light_status "hba1c" (VFloat 1000.0) partial_rules = Ok "amber").
Proof.
  split.
  - apply (missing_bound_is_infinity "bmi" (VFloat 1000.0) partial_rules ∅); reflexivity.
  - apply (missing_bound_is_infinity "hba1c" (VFloat 1000.0) partial_rules
             {[ "green_max" := VFloat 7.0 ]}); reflexivity.
Defined.

Lemma bad_amber_max_raises_above_green_witness :
  get_traffic_light_status "ldl" (VFloat 1.8) partial_rules = Ok "green"
  ∧ get_traffic_light_status "ldl" (VFloat 2.5) partial_rules = Raise Py.TypeError.
Proof.
  pose proof (λ value Hv,
    bad_amber_max_raises_above_green "ldl" value partial_rules
      {[ "green_max" := VFloat 2.0; "amber_max" := VStr "3.0" ]}
      (VFloat 2.0) (VStr "3.0") eq_refl eq_refl eq_refl eq_refl eq_refl Hv) as lazy_check.
  split.
  - apply (lazy_check (VFloat 1.8) eq_refl). reflexivity.
  - apply (lazy_check (VFloat 2.5) eq_refl). reflexivity.
Defined.

(** ** More on [process_pdf]: what it keeps, when it aborts, what it reports *)

Lemma detect_conflicts_outcome patient_data document :
  match detect_conflicts patient_data document with
  | Raise e =>
      e = Py.KeyError "value"
      ∧ ∃ test_name result,
          document !! test_name = Some result
          ∧ needs_value patient_data test_name result
  | Ok found =>
      (∀ test_name result,
         document !! test_name = Some result →
         ¬ needs_value patient_data test_name result)
      ∧ ∀ test_name, found !! test_name
                     = document !! test_name ≫= conflict_for patient_data test_name
  end.
Proof.
  unfold detect_conflicts.
  apply (map_fold_weak_ind (λ acc m,
    match acc with
    | Raise e =>
        e = Py.KeyError "value"
        ∧ ∃ test_name result,
            m !! test_name = Some result ∧ needs_value patient_data test_name result
    | Ok found =>
        (∀ test_name result,
           m !! test_name = Some result → ¬ needs_value patient_data test_name result)
        ∧ ∀ test_name, found !! test_name
                       = m !! test_name ≫= conflict_for patient_data test_name
    end)).
  - split; [intros k r; by rewrite lookup_empty|].
    intros k. by rewrite !lookup_empty.
  - intros i x m [found|e] Hi IH; simpl.
    + destruct IH as [Hok Hlookup].
      unfold needs_value, Py.getitem in *.
      assert (Hx : conflict_for patient_data i x =
        match x !! "value" with
        | Some pdf =>
            if Py.truthy (Py.get patient_data i VNone)
               && Py.ne (Py.get patient_data i VNone) pdf
            then Some {[ "form_value" := Py.get patient_data i VNone; "pdf_value" := pdf;
                         "unit" := Py.get x "unit" (VStr "") ]}
            else None
        | None => None
        end) by done.
      assert (Hskip :
        conflict_for patient_data i x = None →
        (Py.truthy (Py.get patient_data i VNone) = true → is_Some (x !! "value")) →
        (∀ test_name result,
           <[i:=x]> m !! test_name = Some result →
           ¬ (Py.truthy (Py.get patient_data test_name VNone) = true
              ∧ result !! "value" = None))
        ∧ ∀ test_name, found !! test_name
                       = <[i:=x]> m !! test_name ≫= conflict_for patient_data test_name).
      { intros Hnone Hvalue. split.
        - intros k r Hk [Ht Hv].
          destruct (decide (k = i)) as [->|Hne].
          + rewrite lookup_insert_eq in Hk. simplify_eq.
            destruct (Hvalue Ht) as [? ?]. congruence.
          + rewrite lookup_insert_ne in Hk by done. by apply (Hok k r).
        - intros k. destruct (decide (k = i)) as [->|Hne].
          + rewrite lookup_insert_eq, Hlookup, Hi. simpl. by rewrite Hnone.
          + rewrite lookup_insert_ne by done. apply Hlookup. }
      destruct (Py.truthy (Py.get patient_data i VNone)) eqn:Ht.
      * destruct (x !! "value") as [pdf|] eqn:Hv; simpl.
        -- simpl in Hx. destruct (Py.ne _ pdf) eqn:Hne.
           ++ split.
              ** intros k r Hk [Htk Hnov].
                 destruct (decide (k = i)) as [->|Hki].
                 --- rewrite lookup_insert_eq in Hk. simplify_eq.
                 --- rewrite lookup_insert_ne in Hk by done.
                     by apply (Hok k r Hk).
              ** intros k. destruct (decide (k = i)) as [->|Hki].
                 --- rewrite !lookup_insert_eq. simpl. by rewrite Hx.
                 --- rewrite !lookup_insert_ne by done. apply Hlookup.
           ++ apply Hskip; [by rewrite Hx|eauto].
        -- split; [done|]. exists i, x. by rewrite lookup_insert_eq.
      * apply Hskip; [|done]. rewrite Hx. by destruct (x !! "value").
    + destruct IH as [-> (k & r & Hk & Hneeds)]. split; [done|].
      exists k, r. split; [|done].
      rewrite lookup_insert_ne; [done|]. intros ->. congruence.
Qed.

Lemma conflict_for_entry patient_data test_name result conflict :
  conflict_for patient_data test_name result = Some conflict →
  ∃ form_value pdf_value,
    conflict = {[ "form_value" := form_value; "pdf_value" := pdf_value;
                  "unit" := Py.get result "unit" (VStr "") ]}
    ∧ patient_data !! test_name = Some form_value
    ∧ result !! "value" = Some pdf_value
    ∧ Py.truthy form_value = true
    ∧ Py.ne form_value pdf_value = true.
Proof.
  unfold conflict_for, Py.get at 1 2 3.
  destruct (result !! "value") as [pdf_value|]; [|done].
  destruct (patient_data !! test_name) as [form_value|]; [|done].
  destruct (Py.truthy form_value) eqn:Ht; [|done].
  destruct (Py.ne form_value pdf_value) eqn:Hne; [|done].
  intros [= <-]. by exists form_value, pdf_value.
Qed.

Lemma has_values_tolerated patient_data document test_name result :
  has_values document →
  document !! test_name = Some result →
  ¬ needs_value patient_data test_name result.
Proof.
  intros Hvalues Hdoc [_ Hnone].
  destruct (Hvalues test_name result Hdoc) as [? ?]. congruence.
Qed.

Section ProcessPdfEdges.

Context {UploadedFile : Type}.
Variable extract_text : UploadedFile → Py.result string.
Variable parse_lab_results : string → Py.result (gmap string (gmap string Py.val)).

Implicit Types (st : session_state) (file : UploadedFile) (field : string).
Implicit Types (document : gmap string (gmap string Py.val)).

Local Abbreviation process uploaded st :=
  (process_pdf extract_text parse_lab_results uploaded st).

Lemma process_pdf_found file document st found :
  extracts extract_text parse_lab_results file document →
  detect_conflicts (patient_data st) document = Ok found →
  ∃ text,
    process (Some file) st =
      ({| patient_data := patient_data st; lab_data := document;
          pdf_text := Some text; conflicts := found |},
       Some match size found with
            | O => sidebar_success "Lab data extracted successfully!"
            | n => sidebar_warning n
            end).
Proof.
  intros (text & Htext & Hdoc) Hfound. exists text.
  unfold process_pdf. rewrite Htext, Hdoc. simpl. by rewrite Hfound.
Qed.

Lemma process_pdf_aborted file document st e :
  extracts extract_text parse_lab_results file document →
  detect_conflicts (patient_data st) document = Raise e →
  ∃ text,
    process (Some file) st =
      ({| patient_data := patient_data st; lab_data := lab_data st;
          pdf_text := Some text; conflicts := conflicts st |},
       Some (sidebar_error e)).
Proof.
  intros (text & Htext & Hdoc) Hraise. exists text.
  unfold process_pdf. rewrite Htext, Hdoc. simpl. by rewrite Hraise.
Qed.

(** X5: [process_pdf] never writes the patient snapshot, whatever the upload
    and whatever the PDF processor does; without an upload it changes nothing
    and reports nothing. *)
Theorem process_pdf_keeps_patient_data uploaded st :
  patient_data (process_pdf extract_text parse_lab_results uploaded st).1
    = patient_data st
  ∧ process_pdf extract_text parse_lab_results None st = (st, None).
Proof.
  split; [|done]. unfold process_pdf.
  destruct uploaded as [file|]; [|done].
  destruct (extract_text file) as [text|]; [|done].
  destruct (parse_lab_results text) as [document|]; [simpl|done].
  by destruct (detect_conflicts (patient_data st) document).
Qed.

(** X6: when [process_pdf] reports an error, the lab mapping and the conflict
    table of the session are the ones from before the upload: a failed upload
    leaves the earlier conflicts in place. *)
Theorem process_pdf_error_keeps_tables uploaded st e :
  (process_pdf extract_text parse_lab_results uploaded st).2 = Some (sidebar_error e) →
  lab_data (process_pdf extract_text parse_lab_results uploaded st).1 = lab_data st
  ∧ conflicts (process_pdf extract_text parse_lab_results uploaded st).1 = conflicts st
  ∧ patient_data (process_pdf extract_text parse_lab_results uploaded st).1
    = patient_data st.
Proof.
  unfold process_pdf.
  destruct uploaded as [file|]; [|done].
  destruct (extract_text file) as [text|]; [|done].
  destruct (parse_lab_results text) as [document|]; [simpl|done].
  destruct (detect_conflicts (patient_data st) document) as [found|]; [simpl|done].
  by destruct (size found).
Qed.

(** X7: a record of the document without a ['value'] aborts the merge with
    [KeyError('value')] exactly when the form value of its field is truthy;
    records without a ['value'] under falsy or absent form values are passed
    over, and the merge then stores the document and the conflicts. *)
Theorem record_without_value_aborts file document st :
  extracts extract_text parse_lab_results file document →
  ((process (Some file) st).2 = Some (sidebar_error (Py.KeyError "value")) ↔
     ∃ test_name result,
       document !! test_name = Some result
       ∧ needs_value (patient_data st) test_name result)
  ∧ ((∀ test_name result,
        document !! test_name = Some result →
        ¬ needs_value (patient_data st) test_name result) →
     lab_data (process (Some file) st).1 = document
     ∧ ∀ field, conflicts (process (Some file) st).1 !! field
                = document !! field ≫= conflict_for (patient_data st) field).
Proof.
  intros Hex.
  pose proof (detect_conflicts_outcome (patient_data st) document) as Hout.
  destruct (detect_conflicts (patient_data st) document) as [found|e] eqn:Hdetect.
  - destruct Hout as [Hok Hlookup].
    destruct (process_pdf_found file document st found Hex Hdetect) as [text ->].
    simpl. split.
    + split.
      * by destruct (size found).
      * intros (k & r & Hk & Hneeds). by destruct (Hok k r Hk).
    + done.
  - destruct Hout as [-> Hbad].
    destruct (process_pdf_aborted file document st _ Hex Hdetect) as [text ->].
    simpl. split; [done|].
    intros Hok. destruct Hbad as (k & r & Hk & Hneeds). by destruct (Hok k r Hk).
Qed.

(** X8: after a successful merge the conflicts are among the fields that the
    form and the document share, there are at most as many as records, and
    the sidebar says "success" exactly when the table is empty, else the
    warning carries the number of conflicts. *)
Theorem merge_reports_conflict_count file document st :
  extracts extract_text parse_lab_results file document →
  has_values document →
  dom (conflicts (process (Some file) st).1) ⊆ dom document ∩ dom (patient_data st)
  ∧ (size (conflicts (process (Some file) st).1) ≤ size document)%nat
  ∧ ((process (Some file) st).2 = Some (sidebar_success "Lab data extracted successfully!")
     ↔ conflicts (process (Some file) st).1 = ∅)
  ∧ (∀ n, (process (Some file) st).2 = Some (sidebar_warning n)
          ↔ n = size (conflicts (process (Some file) st).1) ∧ (0 < n)%nat).
Proof.
  intros Hex Hvalues.
  destruct (detect_conflicts_lookup (patient_data st) document Hvalues)
    as (found & Hdetect & Hlookup).
  destruct (process_pdf_found file document st found Hex Hdetect) as [text ->].
  simpl.
  assert (Hdom : dom found ⊆ dom document ∩ dom (patient_data st)).
  { intros k [c Hc]%elem_of_dom. rewrite Hlookup in Hc.
    destruct (document !! k) as [r|] eqn:Hr; [simpl in Hc|done].
    apply conflict_for_entry in Hc as (fv & pdf & _ & Hfv & _).
    apply elem_of_intersection. split; apply elem_of_dom; eauto. }
  split; [done|]. split.
  { rewrite <- !size_dom. apply subseteq_size.
    intros k Hk. by destruct (proj1 (elem_of_intersection _ _ _) (Hdom k Hk)). }
  split.
  - rewrite <- map_size_empty_iff. destruct (size found); split; intros; by simplify_eq.
  - intros n. destruct (size found) as [|m]; split.
    + done.
    + intros [-> ?]. lia.
    + intros [= <-]. split; [done|lia].
    + by intros [-> _].
Qed.

(** X9: [process_pdf] is idempotent: processing the same upload again, with
    no change to the form in between and a PDF processor that reads the
    upload as before, gives the same session and the same sidebar message. *)
Theorem process_pdf_idempotent uploaded st :
  process_pdf extract_text parse_lab_results uploaded
    (process_pdf extract_text parse_lab_results uploaded st).1
  = process_pdf extract_text parse_lab_results uploaded st.
Proof.
  unfold process_pdf.
  destruct uploaded as [file|]; [|done].
  destruct (extract_text file) as [text|]; [simpl|done].
  destruct (parse_lab_results text) as [document|]; [simpl|done].
  destruct (detect_conflicts (patient_data st) document) as [found|] eqn:Hfound;
    simpl; by rewrite Hfound.
Qed.

(** X10: every conflict that a merge puts in the table has exactly the keys
    ['form_value'], ['pdf_value'] and ['unit'], so the chip of each conflict
    renders without [KeyError], whichever option the radio button returns. *)
Theorem merged_conflicts_render file document st field conflict resolution :
  extracts extract_text parse_lab_results file document →
  has_values document →
  conflicts (process (Some file) st).1 !! field = Some conflict →
  dom conflict = {[ "form_value"; "pdf_value"; "unit" ]}
  ∧ chips_renderable (conflicts (process (Some file) st).1)
  ∧ ∃ st', render_conflict_chip field conflict resolution (process (Some file) st).1
           = Ok st'.
Proof.
  intros Hex Hvalues.
  destruct (detect_conflicts_lookup (patient_data st) document Hvalues)
    as (found & Hdetect & Hlookup).
  destruct (process_pdf_found file document st found Hex Hdetect) as [text ->].
  simpl.
  assert (Hshape : ∀ k c, found !! k = Some c →
    ∃ fv pdf u, c = {[ "form_value" := fv; "pdf_value" := pdf; "unit" := u ]}).
  { intros k c Hc. rewrite Hlookup in Hc.
    destruct (document !! k) as [r|]; [simpl in Hc|done].
    apply conflict_for_entry in Hc as (fv & pdf & -> & _). eauto. }
  intros Hc. split; [|split].
  - destruct (Hshape _ _ Hc) as (fv & pdf & u & ->).
    rewrite !dom_insert_L, dom_singleton_L. set_solver.
  - intros k c Hk. destruct (Hshape _ _ Hk) as (fv & pdf & u & ->).
    split; eexists; reflexivity.
  - destruct (Hshape _ _ Hc) as (fv & pdf & u & ->).
    unfold render_conflict_chip, Py.getitem.
    change (({[ "form_value" := fv; "pdf_value" := pdf; "unit" := u ]}
               : gmap string Py.val) !! "form_value") with (Some fv).
    change (({[ "form_value" := fv; "pdf_value" := pdf; "unit" := u ]}
               : gmap string Py.val) !! "pdf_value") with (Some pdf).
    simpl. destruct (String.eqb resolution "Use PDF value"); eauto.
Qed.

End ProcessPdfEdges.

(** ** Chips: order, acceptance of PDF values, re-reading the report *)

Lemma eq_irreflexive_truthy v : Py.eq v v = false → Py.truthy v = true.
Proof.
  destruct v as [|b|n|x|s]; simpl; try done.
  - by rewrite Qeq_bool_refl.
  - by rewrite Qeq_bool_refl.
  - destruct (Py.float_number x); simpl; try done. by rewrite Qeq_bool_refl.
  - by rewrite String.eqb_refl.
Qed.

Lemma conflict_for_same_form_value patient_data patient_data' test_name result :
  patient_data' !! test_name = patient_data !! test_name →
  conflict_for patient_data' test_name result = conflict_for patient_data test_name result.
Proof. intros H. unfold conflict_for, Py.get. by rewrite H. Qed.

Lemma conflict_for_accepted patient_data test_name result pdf_value :
  patient_data !! test_name = Some pdf_value →
  result !! "value" = Some pdf_value →
  (conflict_for patient_data test_name result = None ↔ Py.eq pdf_value pdf_value = true).
Proof.
  intros Hform Hvalue. unfold conflict_for, Py.get. rewrite Hform, Hvalue.
  unfold Py.ne. destruct (Py.eq pdf_value pdf_value) eqn:Heq.
  - rewrite andb_false_r. done.
  - rewrite (eq_irreflexive_truthy _ Heq). simpl. split; intros; done.
Qed.

Lemma chip_of_entry field form_value pdf_value unit_value resolution st :
  render_conflict_chip field
    {[ "form_value" := form_value; "pdf_value" := pdf_value; "unit" := unit_value ]}
    resolution st
  = Ok (if String.eqb resolution "Use PDF value"
        then {| patient_data := <[field := pdf_value]> (patient_data st);
                lab_data := lab_data st; pdf_text := pdf_text st;
                conflicts := conflicts st |}
        else st).
Proof.
  unfold render_conflict_chip, Py.getitem.
  change (({[ "form_value" := form_value; "pdf_value" := pdf_value;
              "unit" := unit_value ]} : gmap string Py.val) !! "form_value")
    with (Some form_value).
  change (({[ "form_value" := form_value; "pdf_value" := pdf_value;
              "unit" := unit_value ]} : gmap string Py.val) !! "pdf_value")
    with (Some pdf_value).
  simpl. by destruct (String.eqb resolution "Use PDF value").
Qed.

Lemma chip_of_renderable field conflict form_value pdf_value resolution st :
  conflict !! "form_value" = Some form_value →
  conflict !! "pdf_value" = Some pdf_value →
  render_conflict_chip field conflict resolution st
  = Ok (if String.eqb resolution "Use PDF value"
        then {| patient_data := <[field := pdf_value]> (patient_data st);
                lab_data := lab_data st; pdf_text := pdf_text st;
                conflicts := conflicts st |}
        else st).
Proof.
  intros Hfv Hpdf.
  unfold render_conflict_chip, Py.getitem. rewrite Hfv, Hpdf. simpl.
  by destruct (String.eqb resolution "Use PDF value").
Qed.

(** X11: chips of different fields commute: resolving two conflicts in either
    order gives the same session. *)
Theorem chips_commute field conflict resolution field' conflict' resolution' st :
  field ≠ field' →
  is_Some (conflict !! "form_value") ∧ is_Some (conflict !! "pdf_value") →
  is_Some (conflict' !! "form_value") ∧ is_Some (conflict' !! "pdf_value") →
  (try! st1 := render_conflict_chip field conflict resolution st in
   render_conflict_chip field' conflict' resolution' st1)
  = (try! st1 := render_conflict_chip field' conflict' resolution' st in
     render_conflict_chip field conflict resolution st1).
Proof.
  intros Hne [[fv Hf] [pdf Hp]] [[fv' Hf'] [pdf' Hp']].
  rewrite (chip_of_renderable field conflict fv pdf resolution st Hf Hp).
  rewrite (chip_of_renderable field' conflict' fv' pdf' resolution' st Hf' Hp').
  simpl.
  rewrite (chip_of_renderable field' conflict' fv' pdf' resolution' _ Hf' Hp').
  rewrite (chip_of_renderable field conflict fv pdf resolution _ Hf Hp).
  destruct (String.eqb resolution _), (String.eqb resolution' _); simpl; try done.
  f_equal. f_equal. by apply insert_insert_ne.
Qed.

Lemma fold_chips radio st table :
  chips_renderable table →
  ∃ st',
    map_fold
      (λ test_name conflict acc,
         try! st := acc in
         render_conflict_chip test_name conflict (radio test_name) st)
      (Ok st) table = Ok st'
    ∧ conflicts st' = conflicts st
    ∧ lab_data st' = lab_data st
    ∧ pdf_text st' = pdf_text st
    ∧ ∀ field,
        patient_data st' !! field =
          match table !! field with
          | Some conflict =>
              if String.eqb (radio field) "Use PDF value"
              then conflict !! "pdf_value"
              else patient_data st !! field
          | None => patient_data st !! field
          end.
Proof.
  unfold chips_renderable.
  apply (map_fold_weak_ind (λ acc m,
    map_Forall (λ _ conflict,
      is_Some (conflict !! "form_value") ∧ is_Some (conflict !! "pdf_value")) m →
    ∃ st',
      acc = Ok st'
      ∧ conflicts st' = conflicts st
      ∧ lab_data st' = lab_data st
      ∧ pdf_text st' = pdf_text st
      ∧ ∀ field,
          patient_data st' !! field =
            match m !! field with
            | Some conflict =>
                if String.eqb (radio field) "Use PDF value"
                then conflict !! "pdf_value"
                else patient_data st !! field
            | None => patient_data st !! field
            end)).
  - intros _. exists st. repeat split.
  - intros i c m acc Hi IH Hall.
    apply map_Forall_insert in Hall as [[[fv Hfv] [pdf Hpdf]] Hall]; [|done].
    destruct (IH Hall) as (st1 & -> & Hc & Hl & Ht & Hpd). clear IH. simpl.
    rewrite (chip_of_renderable i c fv pdf (radio i) st1 Hfv Hpdf).
    eexists. split; [reflexivity|].
    destruct (String.eqb (radio i) "Use PDF value") eqn:Hradio; simpl.
    + repeat split; try done. intros field.
      destruct (decide (field = i)) as [->|Hne].
      * by rewrite !lookup_insert_eq, Hradio.
      * rewrite !lookup_insert_ne by done. apply Hpd.
    + repeat split; try done. intros field.
      destruct (decide (field = i)) as [->|Hne].
      * rewrite lookup_insert_eq, Hradio, Hpd, Hi. done.
      * rewrite lookup_insert_ne by done. apply Hpd.
Qed.

(** X12: the loop over the conflict table applies every choice: a field
    whose radio button says "Use PDF value" gets the PDF value of its
    conflict, every other field keeps its value, and the conflict table and
    the lab mapping are not touched. *)
Theorem render_conflicts_applies_choices radio st :
  chips_renderable (conflicts st) →
  ∃ st',
    render_conflicts radio st = Ok st'
    ∧ conflicts st' = conflicts st
    ∧ lab_data st' = lab_data st
    ∧ ∀ field,
        patient_data st' !! field =
          match conflicts st !! field with
          | Some conflict =>
              if String.eqb (radio field) "Use PDF value"
              then conflict !! "pdf_value"
              else patient_data st !! field
          | None => patient_data st !! field
          end.
Proof.
  intros Hchips.
  destruct (fold_chips radio st (conflicts st) Hchips)
    as (st' & Hfold & Hc & Hl & _ & Hpd).
  exists st'. by repeat split.
Qed.

Section ChipEdges.

Context {UploadedFile : Type}.
Variable extract_text : UploadedFile → Py.result string.
Variable parse_lab_results : string → Py.result (gmap string (gmap string Py.val)).

Implicit Types (st : session_state) (file : UploadedFile) (field : string).
Implicit Types (document : gmap string (gmap string Py.val)).

Local Abbreviation process uploaded st :=
  (process_pdf extract_text parse_lab_results uploaded st).

Lemma merged_table_renderable file document st :
  extracts extract_text parse_lab_results file document →
  has_values document →
  chips_renderable (conflicts (process (Some file) st).1).
Proof.
  intros Hex Hvalues field conflict Hc.
  rewrite (merge_conflict_lookup _ _ file document st field Hex Hvalues) in Hc.
  destruct (document !! field) as [result|]; [simpl in Hc|done].
  apply conflict_for_entry in Hc as (fv & pdf & -> & _).
  split; eexists; reflexivity.
Qed.

(** X13: accepting the PDF value settles the conflict.  After "Use PDF
    value" the field holds the document value, and reading the same report
    again raises no conflict for the field, unless the value differs from
    itself (a NaN), in which case the conflict comes back every time. *)
Theorem accepted_pdf_value_settles file document st field conflict st1 :
  extracts extract_text parse_lab_results file document →
  has_values document →
  conflicts (process (Some file) st).1 !! field = Some conflict →
  render_conflict_chip field conflict "Use PDF value" (process (Some file) st).1 = Ok st1 →
  ∃ result pdf_value,
    document !! field = Some result
    ∧ result !! "value" = Some pdf_value
    ∧ patient_data st1 !! field = Some pdf_value
    ∧ (conflicts (process (Some file) st1).1 !! field = None
       ↔ Py.eq pdf_value pdf_value = true).
Proof.
  intros Hex Hvalues Hc Hchip.
  rewrite (merge_conflict_lookup _ _ file document st field Hex Hvalues) in Hc.
  destruct (document !! field) as [result|] eqn:Hdoc; [simpl in Hc|done].
  apply conflict_for_entry in Hc as (fv & pdf & -> & _ & Hvalue & _).
  rewrite chip_of_entry in Hchip. simpl in Hchip. injection Hchip as <-.
  exists result, pdf. split; [done|]. split; [done|].
  split; [simpl; by rewrite lookup_insert_eq|].
  rewrite (merge_conflict_lookup _ _ file document _ field Hex Hvalues), Hdoc.
  simpl. apply conflict_for_accepted; [|done]. by rewrite lookup_insert_eq.
Qed.

(** X14: accepting every PDF value and reading the same report again gives
    an empty conflict table and the success message, provided no value of
    the report is a NaN. *)
Theorem accepting_all_clears_conflicts file document st st1 :
  extracts extract_text parse_lab_results file document →
  has_values document →
  (∀ test_name result pdf_value,
     document !! test_name = Some result →
     result !! "value" = Some pdf_value →
     Py.eq pdf_value pdf_value = true) →
  render_conflicts (λ _, "Use PDF value") (process (Some file) st).1 = Ok st1 →
  conflicts (process (Some file) st1).1 = ∅
  ∧ (process (Some file) st1).2 = Some (sidebar_success "Lab data extracted successfully!").
Proof.
  intros Hex Hvalues Hrefl Hloop.
  destruct (fold_chips (λ _, "Use PDF value") (process (Some file) st).1 _
              (merged_table_renderable file document st Hex Hvalues))
    as (st' & Hfold & _ & _ & _ & Hpd).
  unfold render_conflicts in Hloop. rewrite Hfold in Hloop. injection Hloop as ->.
  destruct (detect_conflicts_lookup (patient_data st1) document Hvalues)
    as (found & Hdetect & Hlookup).
  assert (Hempty : found = ∅).
  { apply map_empty. intros field. rewrite Hlookup.
    destruct (document !! field) as [result|] eqn:Hdoc; [simpl|done].
    destruct (Hvalues field result Hdoc) as [pdf Hvalue].
    specialize (Hpd field).
    rewrite (merge_conflict_lookup _ _ file document st field Hex Hvalues), Hdoc in Hpd.
    destruct (merge_keeps_patient_data _ _ file document st Hex Hvalues) as [Hsame _].
    rewrite Hsame in Hpd. simpl in Hpd.
    destruct (conflict_for (patient_data st) field result) as [conflict|] eqn:Hc.
    - apply conflict_for_entry in Hc as (fv & pdf' & -> & _ & Hvalue' & _).
      assert (pdf' = pdf) as -> by congruence.
      change (patient_data st1 !! field = Some pdf) in Hpd.
      apply (proj2 (conflict_for_accepted _ _ _ _ Hpd Hvalue)).
      by apply (Hrefl field result).
    - by rewrite (conflict_for_same_form_value (patient_data st) _ _ _ Hpd). }
  subst found.
  destruct (process_pdf_found _ _ file document st1 ∅ Hex Hdetect) as [text ->].
  done.
Qed.

End ChipEdges.

(** ** Preselection of the select boxes *)

Lemma list_index_member options s :
  s ∈ options →
  ∃ i, list_index options (VStr s) = Index i
       ∧ options !! i = Some s
       ∧ ∀ j, (j < i)%nat → options !! j ≠ Some s.
Proof.
  induction options as [|entry rest IH]; [by intros ?%elem_of_nil|].
  intros Hin. simpl.
  destruct (String.eqb entry s) eqn:Heq.
  - apply String.eqb_eq in Heq as ->. exists 0%nat.
    split; [done|]. split; [done|]. intros j Hj. lia.
  - apply String.eqb_neq in Heq.
    apply elem_of_cons in Hin as [->|Hin]; [done|].
    destruct (IH Hin) as (i & -> & Hi & Hfirst).
    exists (S i). split; [done|]. split; [done|].
    intros [|j] Hj; simpl.
    + congruence.
    + apply Hfirst. lia.
Qed.

Lemma list_index_stranger options stored :
  (∀ s, stored = VStr s → s ∉ options) →
  list_index options stored = ValueError.
Proof.
  intros Hout. induction options as [|entry rest IH]; [done|]. cbn [list_index].
  assert (Hne : Py.eq (VStr entry) stored = false).
  { destruct stored as [| | | |s]; try done. simpl.
    apply String.eqb_neq. intros ->.
    apply (Hout s eq_refl). by left. }
  rewrite Hne, IH; [done|].
  intros s Hs Hin. apply (Hout s Hs). by right.
Qed.

(** X15: the preselected index of a select box.  Without a stored value it
    is 0; for a stored option it is the first position of that option, so
    the box shows the stored value again; a stored value that is not among
    the options (another string, a number, [None]) raises [ValueError]. *)
Theorem selectbox_index_finds_stored options data key :
  (data !! key = None → selectbox_index options data key = Index 0)
  ∧ (∀ s, data !! key = Some (VStr s) → s ∈ options →
       ∃ i, selectbox_index options data key = Index i
            ∧ options !! i = Some s
            ∧ ∀ j, (j < i)%nat → options !! j ≠ Some s)
  ∧ (∀ stored, data !! key = Some stored →
       (∀ s, stored = VStr s → s ∉ options) →
       selectbox_index options data key = ValueError).
Proof.
  unfold selectbox_index. split; [|split].
  - by intros ->.
  - intros s -> Hin. by apply list_index_member.
  - intros stored -> Hout. by apply list_index_stranger.
Qed.

Example selectbox_index_sex :
  selectbox_index sex_options {[ "sex" := VStr "Other" ]} "sex" = Index 2
  ∧ selectbox_index sex_options ∅ "sex" = Index 0
  ∧ selectbox_index sex_options {[ "sex" := VStr "Unknown" ]} "sex" = ValueError
  ∧ selectbox_index diabetes_type_options {[ "diabetes_type" := VInt 2 ]} "diabetes_type"
    = ValueError.
Proof. repeat split. Qed.

(** ** Witnesses of the further properties *)

Lemma hba1c_report_extracts :
  extracts sample_extract_text sample_parse_lab_results "HbA1c 9.4 %" hba1c_report.
Proof. by exists "HbA1c 9.4 %". Qed.

Lemma hba1c_report_has_values : has_values hba1c_report.
Proof. apply (has_values_singleton _ _ (VFloat 9.4)). reflexivity. Qed.

Lemma hba1c_conflict_found :
  conflicts (process_pdf sample_extract_text sample_parse_lab_results
               (Some "HbA1c 9.4 %") hba1c_form).1 !! "hba1c" = Some hba1c_conflict.
Proof. vm_compute. reflexivity. Qed.

Lemma process_pdf_error_keeps_tables_witness :
  lab_data (sample_process_pdf "torn page" (sample_process_pdf "HbA1c 9.4 %" hba1c_form))
    = hba1c_report
  ∧ conflicts (sample_process_pdf "torn page" (sample_process_pdf "HbA1c 9.4 %" hba1c_form))
    = {[ "hba1c" := hba1c_conflict ]}.
Proof.
  destruct (process_pdf_error_keeps_tables sample_extract_text sample_parse_lab_results
              (Some "torn page") (sample_process_pdf "HbA1c 9.4 %" hba1c_form)
              (Py.CollaboratorError "unreadable report") eq_refl)
    as (Hlab & Hconflicts & _).
  split.
  - unfold sample_process_pdf at 1. rewrite Hlab. vm_compute. reflexivity.
  - unfold sample_process_pdf at 1. rewrite Hconflicts. vm_compute. reflexivity.
Defined.

Lemma record_without_value_aborts_witness :
  (process_pdf sample_extract_text (parse_as valueless_report) (Some "HbA1c %") hba1c_form).2
    = Some (sidebar_error (Py.KeyError "value"))
  ∧ lab_data (process_pdf sample_extract_text (parse_as valueless_report)
                (Some "HbA1c %") initial_session).1 = valueless_report.
Proof.
  assert (Hex : extracts sample_extract_text (parse_as valueless_report)
                  "HbA1c %" valueless_report) by (by exists "HbA1c %").
  split.
  - apply (record_without_value_aborts sample_extract_text (parse_as valueless_report)
             "HbA1c %" valueless_report hba1c_form Hex).
    exists "hba1c", {[ "unit" := VStr "%" ]}. repeat split.
  - apply (record_without_value_aborts sample_extract_text (parse_as valueless_report)
             "HbA1c %" valueless_report initial_session Hex).
    intros test_name result _ [Htruthy _].
    unfold Py.get in Htruthy. simpl in Htruthy. by rewrite lookup_empty in Htruthy.
Defined.

Lemma merge_reports_conflict_count_witness :
  (size (conflicts (sample_process_pdf "HbA1c 9.4 %" hba1c_form)) ≤ size hba1c_report)%nat
  ∧ (process_pdf sample_extract_text sample_parse_lab_results
       (Some "HbA1c 9.4 %") hba1c_form).2 = Some (sidebar_warning 1).
Proof.
  destruct (merge_reports_conflict_count sample_extract_text sample_parse_lab_results
              "HbA1c 9.4 %" hba1c_report hba1c_form
              hba1c_report_extracts hba1c_report_has_values)
    as (_ & Hsize & _ & Hwarning).
  split; [exact Hsize|]. apply Hwarning. split; vm_compute; [reflexivity|lia].
Defined.

Lemma merged_conflicts_render_witness :
  dom hba1c_conflict = {[ "form_value"; "pdf_value"; "unit" ]}
  ∧ ∃ st', render_conflict_chip "hba1c" hba1c_conflict "Keep form value"
             (process_pdf sample_extract_text sample_parse_lab_results
                (Some "HbA1c 9.4 %") hba1c_form).1 = Ok st'.
Proof.
  destruct (merged_conflicts_render sample_extract_text sample_parse_lab_results
              "HbA1c 9.4 %" hba1c_report hba1c_form "hba1c" hba1c_conflict
              "Keep form value"
              hba1c_report_extracts hba1c_report_has_values hba1c_conflict_found)
    as (Hdom & _ & Hchip).
  split; [exact Hdom|exact Hchip].
Defined.

Lemma chips_commute_witness :
  (try! st1 := render_conflict_chip "hba1c" hba1c_conflict "Use PDF value" initial_session in
   render_conflict_chip "ketones" ketones_conflict "Use PDF value" st1)
  = (try! st1 := render_conflict_chip "ketones" ketones_conflict "Use PDF value"
                   initial_session in
     render_conflict_chip "hba1c" hba1c_conflict "Use PDF value" st1).
Proof.
  apply (chips_commute "hba1c" hba1c_conflict "Use PDF value"
           "ketones" ketones_conflict "Use PDF value" initial_session).
  - done.
  - split; eexists; reflexivity.
  - split; eexists; reflexivity.
Defined.

Lemma accepted_session_rendered :
  render_conflicts (λ _, "Use PDF value")
    (process_pdf sample_extract_text sample_parse_lab_results
       (Some "HbA1c 9.4 %") hba1c_form).1 = Ok accepted_session.
Proof. vm_compute. reflexivity. Qed.

Lemma render_conflicts_applies_choices_witness :
  ∃ st', render_conflicts (λ _, "Use PDF value")
           (sample_process_pdf "HbA1c 9.4 %" hba1c_form) = Ok st'
         ∧ patient_data st' !! "hba1c" = Some (VFloat 9.4).
Proof.
  destruct (render_conflicts_applies_choices (λ _, "Use PDF value")
              (sample_process_pdf "HbA1c 9.4 %" hba1c_form))
    as (st' & Hloop & _ & _ & Hdata).
  - exact (merged_table_renderable sample_extract_text sample_parse_lab_results
             "HbA1c 9.4 %" hba1c_report hba1c_form
             hba1c_report_extracts hba1c_report_has_values).
  - exists st'. split; [exact Hloop|]. rewrite Hdata. vm_compute. reflexivity.
Defined.

Lemma accepted_session_chip :
  render_conflict_chip "hba1c" hba1c_conflict "Use PDF value"
    (process_pdf sample_extract_text sample_parse_lab_results
       (Some "HbA1c 9.4 %") hba1c_form).1 = Ok accepted_session.
Proof. vm_compute. reflexivity. Qed.

Lemma accepted_pdf_value_settles_witness :
  patient_data accepted_session !! "hba1c" = Some (VFloat 9.4)
  ∧ conflicts (process_pdf sample_extract_text sample_parse_lab_results
                 (Some "HbA1c 9.4 %") accepted_session).1 !! "hba1c" = None.
Proof.
  destruct (accepted_pdf_value_settles sample_extract_text sample_parse_lab_results
              "HbA1c 9.4 %" hba1c_report hba1c_form "hba1c" hba1c_conflict
              accepted_session
              hba1c_report_extracts hba1c_report_has_values
              hba1c_conflict_found accepted_session_chip)
    as (result & pdf_value & Hdoc & Hvalue & Hdata & Hsettled).
  vm_compute in Hdoc. injection Hdoc as <-.
  vm_compute in Hvalue. injection Hvalue as <-.
  split; [exact Hdata|]. apply Hsettled. reflexivity.
Defined.

Lemma hba1c_report_no_nan test_name result pdf_value :
  hba1c_report !! test_name = Some result →
  result !! "value" = Some pdf_value →
  Py.eq pdf_value pdf_value = true.
Proof.
  unfold hba1c_report. intros [_ <-]%lookup_singleton_Some Hvalue.
  vm_compute in Hvalue. by injection Hvalue as <-.
Qed.

Lemma accepting_all_clears_conflicts_witness :
  conflicts (process_pdf sample_extract_text sample_parse_lab_results
               (Some "HbA1c 9.4 %") accepted_session).1 = ∅
  ∧ (process_pdf sample_extract_text sample_parse_lab_results
       (Some "HbA1c 9.4 %") accepted_session).2
    = Some (sidebar_success "Lab data extracted successfully!").
Proof.
  exact (accepting_all_clears_conflicts sample_extract_text sample_parse_lab_results
           "HbA1c 9.4 %" hba1c_report hba1c_form accepted_session
           hba1c_report_extracts hba1c_report_has_values
           hba1c_report_no_nan accepted_session_rendered).
Defined.
